(** * speedy.js: the code generator for binary expressions

    A shallow embedding of
    [packages/compiler/src/code-generation/code-generators/binary-expression-code-generator.ts]
    and of the collaborators it talks to (the typed syntax tree, the value
    abstraction, the LLVM instruction builder), followed by the properties
    of the lowering of [left op right]. *)

From stdpp Require Import base decidable option list strings gmap.
From Stdlib Require Import ZArith Lia.

Local Open Scope Z_scope.

(** ** The TypeScript side: operator tokens, type flags, typed nodes *)

Module ts.

(** [ts.SyntaxKind], restricted to the tokens a [ts.BinaryOperatorToken]
    can carry. *)
Inductive SyntaxKind : Set :=
| LessThanToken
| GreaterThanToken
| LessThanEqualsToken
| GreaterThanEqualsToken
| EqualsEqualsToken
| ExclamationEqualsToken
| EqualsEqualsEqualsToken
| ExclamationEqualsEqualsToken
| PlusToken
| MinusToken
| AsteriskToken
| AsteriskAsteriskToken
| SlashToken
| PercentToken
| LessThanLessThanToken
| GreaterThanGreaterThanToken
| GreaterThanGreaterThanGreaterThanToken
| AmpersandToken
| BarToken
| CaretToken
| AmpersandAmpersandToken
| BarBarToken
| EqualsToken
| PlusEqualsToken
| MinusEqualsToken
| AsteriskEqualsToken
| AsteriskAsteriskEqualsToken
| SlashEqualsToken
| PercentEqualsToken
| LessThanLessThanEqualsToken
| GreaterThanGreaterThanEqualsToken
| GreaterThanGreaterThanGreaterThanEqualsToken
| AmpersandEqualsToken
| BarEqualsToken
| CaretEqualsToken
| CommaToken
| InKeyword
| InstanceOfKeyword.

(** In TypeScript's enumeration [FirstAssignment] is another name of
    [EqualsToken]: the simple assignment [=]. *)
Abbreviation FirstAssignment := EqualsToken (only parsing).

#[global] Instance SyntaxKind_eq_dec : EqDecision SyntaxKind.
Proof. solve_decision. Defined.

(** A [ts.Type]: the generator reads nothing but its [flags]. *)
Record Type_ : Set := { flags : Z }.

#[global] Instance Type_eq_dec : EqDecision Type_.
Proof. solve_decision. Defined.

(** The masks [ts.TypeFlags.Int], [ts.TypeFlags.IntLike] and
    [ts.TypeFlags.NumberLike].  They are declared by the TypeScript
    fork the compiler depends on
    ([MichaReiser/TypeScript#2.3.3-with-int] in package.json), so
    their values are parameters of the development. *)
Class TypeFlags : Set := { Int : Z; IntLike : Z; NumberLike : Z }.

(** Modelled from the spec: the typed syntax tree.  The front end
    provides "fully-typed nodes": every expression node carries the
    static type the checker resolved for it.  Only the categories
    that can stand as operands here are kept: identifiers, integer
    and float literals, and binary expressions. *)
Inductive Node : Set :=
| Identifier (text : string) (type : Type_)
| IntegerLiteral (value : Z) (type : Type_)
| FloatLiteral (text : string) (type : Type_)
| BinaryExpression (left : Node) (operatorToken : SyntaxKind)
                   (right : Node) (type : Type_).

(** [typeChecker.getTypeAtLocation(node)] *)
Definition getTypeAtLocation (node : Node) : Type_ :=
  match node with
  | Identifier _ t | IntegerLiteral _ t | FloatLiteral _ t
  | BinaryExpression _ _ _ t => t
  end.

End ts.

(** [type.flags & mask] read as a JavaScript condition: true iff the
    bitwise and is not zero. *)
Definition hasFlags (type : ts.Type_) (mask : Z) : bool :=
  negb (Z.land (ts.flags type) mask =? 0).

(** ** The LLVM side: values, instructions, the instruction builder *)

Module llvm.

Inductive Type_ : Set := Int1Ty | Int32Ty | DoubleTy.

(** An [llvm.Value] is a constant or the result of the [id]-th
    instruction of the function being emitted.  A float constant is
    kept as the text of its literal. *)
Inductive Value : Set :=
| ConstantInt (value : Z)
| ConstantFP (text : string)
| Inst (id : nat).

(** [v instanceof llvm.ConstantInt && v.isNullValue()] *)
Definition isNullConstantInt (v : Value) : bool :=
  match v with
  | ConstantInt value => value =? 0
  | _ => false
  end.

Inductive BinaryOps : Set :=
| Add | FAdd | Sub | FSub | Mul | FMul | SDiv | FDiv | SRem | FRem
| Shl | LShr | AShr | And | Or | Xor.

Inductive IntPredicate : Set :=
| ICMP_EQ | ICMP_NE | ICMP_SGT | ICMP_SGE | ICMP_SLT | ICMP_SLE.

Inductive FloatPredicate : Set :=
| FCMP_OEQ | FCMP_OGT | FCMP_OGE | FCMP_OLT | FCMP_OLE | FCMP_ONE
| FCMP_UEQ | FCMP_UGT | FCMP_UGE | FCMP_ULT | FCMP_ULE | FCMP_UNE.

(** A stack slot, the storage an l-value designates. *)
Definition Slot : Set := nat.

Inductive Instruction : Set :=
| BinaryOperator (op : BinaryOps) (lhs rhs : Value)
| ICmp (p : IntPredicate) (lhs rhs : Value)
| FCmp (p : FloatPredicate) (lhs rhs : Value)
| FPToSI (v : Value) (destTy : Type_)
| Load (ptr : Slot)
| Store (v : Value) (ptr : Slot).

End llvm.

(** ** Values

    Modelled from the spec: [../value/value] is not part of the
    sources at hand.  A Value is an r-value (an SSA operand of known
    type) or an l-value (a storage descriptor of known type); function
    references cannot come out of the operand categories kept in
    [ts.Node]. *)
Inductive Value : Set :=
| RValue (ssa : llvm.Value) (type : ts.Type_)
| LValue (slot : llvm.Slot) (type : ts.Type_).

Definition typeOf (v : Value) : ts.Type_ :=
  match v with RValue _ t | LValue _ t => t end.

(** [value.isAssignable()]: "true iff l-value". *)
Definition isAssignable (v : Value) : bool :=
  match v with LValue _ _ => true | RValue _ _ => false end.

(** ** Errors, the emission context and the generator monad *)

Inductive Error : Set :=
| UnsupportedBinaryOperator (kind : ts.SyntaxKind)
    (* new Error(`Unsupported binary operator ${ts.SyntaxKind[kind]}`) *)
| ReadOnlyTarget (target : Value)
    (* new Error(`Assignment to readonly value ${target}`) *)
| TypeMismatch (source target : ts.Type_)
| UnresolvedSymbol (text : string).

Inductive Result (A : Type) : Type :=
| Ok (a : A)
| Throw (e : Error).
Arguments Ok {A} a.
Arguments Throw {A} e.

(** The mutable part of the [CodeGenerationContext]: the instructions
    the builder has inserted so far, in emission order, and the scope
    that maps a symbol to its slot. *)
Record CodeGenerationContext : Type := {
  builder : list llvm.Instruction;
  scope : gmap string llvm.Slot
}.

(** A generator step runs on a context and either returns or throws;
    what it had emitted before throwing stays emitted. *)
Definition M (A : Type) : Type :=
  CodeGenerationContext -> Result A * CodeGenerationContext.

Definition ret {A} (a : A) : M A := fun context => (Ok a, context).

Definition throw {A} (e : Error) : M A := fun context => (Throw e, context).

Definition bind {A B} (m : M A) (k : A -> M B) : M B :=
  fun context =>
    match m context with
    | (Ok a, context') => k a context'
    | (Throw e, context') => (Throw e, context')
    end.

Declare Scope gen_scope.
Delimit Scope gen_scope with gen.
Notation "x <- m ;; k" := (bind m (fun x => k))
  (at level 100, m at next level, right associativity) : gen_scope.
Notation "m ;; k" := (bind m (fun _ => k))
  (at level 100, right associativity) : gen_scope.
Local Open Scope gen_scope.

(** ** The instruction builder

    [context.builder.createX(...)] inserts one instruction at the end of
    the current block and returns it as an [llvm.Value].  The folding of
    constant operands that the LLVM builder may do is left out: an
    instruction is inserted whatever its operands are. *)

Definition insert (i : llvm.Instruction) : M llvm.Value :=
  fun context =>
    (Ok (llvm.Inst (length (builder context))),
     {| builder := builder context ++ [i]; scope := scope context |}).

Definition createAdd (l r : llvm.Value) := insert (llvm.BinaryOperator llvm.Add l r).
Definition createFAdd (l r : llvm.Value) := insert (llvm.BinaryOperator llvm.FAdd l r).
Definition createSub (l r : llvm.Value) := insert (llvm.BinaryOperator llvm.Sub l r).
Definition createFSub (l r : llvm.Value) := insert (llvm.BinaryOperator llvm.FSub l r).
Definition createMul (l r : llvm.Value) := insert (llvm.BinaryOperator llvm.Mul l r).
Definition createSDiv (l r : llvm.Value) := insert (llvm.BinaryOperator llvm.SDiv l r).
Definition createFDiv (l r : llvm.Value) := insert (llvm.BinaryOperator llvm.FDiv l r).
Definition createSRem (l r : llvm.Value) := insert (llvm.BinaryOperator llvm.SRem l r).
Definition createFRem (l r : llvm.Value) := insert (llvm.BinaryOperator llvm.FRem l r).
Definition createOr (l r : llvm.Value) := insert (llvm.BinaryOperator llvm.Or l r).
Definition createICmpEQ (l r : llvm.Value) := insert (llvm.ICmp llvm.ICMP_EQ l r).
Definition createICmpSGT (l r : llvm.Value) := insert (llvm.ICmp llvm.ICMP_SGT l r).
Definition createICmpSLT (l r : llvm.Value) := insert (llvm.ICmp llvm.ICMP_SLT l r).
Definition createICmpSLE (l r : llvm.Value) := insert (llvm.ICmp llvm.ICMP_SLE l r).
Definition createFCmpOEQ (l r : llvm.Value) := insert (llvm.FCmp llvm.FCMP_OEQ l r).
Definition createFCmpOGT (l r : llvm.Value) := insert (llvm.FCmp llvm.FCMP_OGT l r).
Definition createFCmpULT (l r : llvm.Value) := insert (llvm.FCmp llvm.FCMP_ULT l r).
Definition createFCmpULE (l r : llvm.Value) := insert (llvm.FCmp llvm.FCMP_ULE l r).
Definition createFPToSI (v : llvm.Value) (destTy : llvm.Type_) := insert (llvm.FPToSI v destTy).
Definition createLoad (ptr : llvm.Slot) := insert (llvm.Load ptr).
Definition createStore (v : llvm.Value) (ptr : llvm.Slot) := insert (llvm.Store v ptr).

(** ** The operations of a Value *)

(** Modelled from the spec: [value.generateIR()], the spec's
    [as_rvalue]: "for r-values, identity; for l-values, emits a load". *)
Definition generateIR (v : Value) : M llvm.Value :=
  match v with
  | RValue ssa _ => ret ssa
  | LValue slot _ => createLoad slot
  end.

(** The implicit promotion rules an assignment checks its types
    against belong to the value abstraction and are not given by the
    sources at hand: [matchesAfterPromotion source target] says whether
    a value of static type [source] may be stored into a slot of static
    type [target]. *)
Class PromotionRules : Set :=
  { matchesAfterPromotion : ts.Type_ -> ts.Type_ -> bool }.

(** Modelled from the spec: [target.generateAssignmentIR(value)], the
    spec's [assign]: "stores; fails with ReadOnlyTarget if not
    assignable.  Types must match after implicit promotion rules;
    mismatch is TypeMismatch". *)
Definition generateAssignmentIR `{PromotionRules} (target value : Value) : M unit :=
  match target with
  | RValue _ _ => throw (ReadOnlyTarget target)
  | LValue slot type =>
      if matchesAfterPromotion (typeOf value) type
      then (v <- generateIR value;; createStore v slot;; ret tt)
      else throw (TypeMismatch (typeOf value) type)
  end.

(** [context.value(llvmValue, type)] wraps a computed SSA operand. *)
Definition context_value (v : llvm.Value) (type : ts.Type_) : Value := RValue v type.

(** ** binary-expression-code-generator.ts *)

Definition isAssignment (operatorToken : ts.SyntaxKind) : bool :=
  bool_decide (operatorToken = ts.EqualsToken) ||
  bool_decide (operatorToken = ts.PlusEqualsToken) ||
  bool_decide (operatorToken = ts.MinusEqualsToken) ||
  bool_decide (operatorToken = ts.AsteriskAsteriskEqualsToken) ||
  bool_decide (operatorToken = ts.AsteriskEqualsToken) ||
  bool_decide (operatorToken = ts.SlashEqualsToken) ||
  bool_decide (operatorToken = ts.PercentEqualsToken) ||
  bool_decide (operatorToken = ts.AmpersandEqualsToken) ||
  bool_decide (operatorToken = ts.BarEqualsToken) ||
  bool_decide (operatorToken = ts.CaretEqualsToken) ||
  bool_decide (operatorToken = ts.LessThanLessThanEqualsToken) ||
  bool_decide (operatorToken = ts.GreaterThanGreaterThanGreaterThanEqualsToken) ||
  bool_decide (operatorToken = ts.GreaterThanGreaterThanEqualsToken).

Section Generator.
Context {typeFlags : ts.TypeFlags} {promotionRules : PromotionRules}.

(** [setValue(target, value)] *)
Definition setValue (target value : Value) : M unit :=
  if isAssignable target
  then generateAssignmentIR target value
  else throw (ReadOnlyTarget target).

(** A branch of the operator switch that assigns [result]. *)
Definition assigned (m : M llvm.Value) : M (option llvm.Value) :=
  result <- m;; ret (Some result).

(** The [switch] of [generate]: the value left in [result] when the
    switch is left, [None] for [undefined]. *)
Definition switchOperator (operatorToken : ts.SyntaxKind) (leftType : ts.Type_)
    (left : Value) (rightLLVMValue : llvm.Value) : M (option llvm.Value) :=
  match operatorToken with
  | ts.AsteriskEqualsToken
  | ts.AsteriskToken =>
      if hasFlags leftType ts.Int
      then assigned (l <- generateIR left;; createMul l rightLLVMValue)
      else ret None

  | ts.BarToken =>
      if hasFlags leftType ts.NumberLike
      then
        (* 293.3 | 0 *)
        if llvm.isNullConstantInt rightLLVMValue
        then assigned (l <- generateIR left;; createFPToSI l llvm.Int32Ty)
        else assigned (l <- generateIR left;; createOr l rightLLVMValue)
      else ret None

  | ts.PlusEqualsToken
  | ts.PlusToken =>
      if hasFlags leftType ts.IntLike
      then assigned (l <- generateIR left;; createAdd l rightLLVMValue)
      else if hasFlags leftType ts.NumberLike
      then assigned (l <- generateIR left;; createFAdd l rightLLVMValue)
      else ret None

  | ts.MinusEqualsToken
  | ts.MinusToken =>
      if hasFlags leftType ts.IntLike
      then assigned (l <- generateIR left;; createSub l rightLLVMValue)
      else if hasFlags leftType ts.NumberLike
      then assigned (l <- generateIR left;; createFSub l rightLLVMValue)
      else ret None

  | ts.GreaterThanToken =>
      if hasFlags leftType ts.IntLike
      then assigned (l <- generateIR left;; createICmpSGT l rightLLVMValue)
      else if hasFlags leftType ts.NumberLike
      then assigned (l <- generateIR left;; createFCmpOGT l rightLLVMValue)
      else ret None

  | ts.LessThanToken =>
      if hasFlags leftType ts.IntLike
      then assigned (l <- generateIR left;; createICmpSLT l rightLLVMValue)
      else if hasFlags leftType ts.NumberLike
      then assigned (l <- generateIR left;; createFCmpULT l rightLLVMValue)
      else ret None

  | ts.SlashEqualsToken
  | ts.SlashToken =>
      if hasFlags leftType ts.IntLike
      then assigned (l <- generateIR left;; createSDiv l rightLLVMValue)
      else if hasFlags leftType ts.NumberLike
      then assigned (l <- generateIR left;; createFDiv l rightLLVMValue)
      else ret None

  | ts.EqualsEqualsEqualsToken =>
      if hasFlags leftType ts.IntLike
      then assigned (l <- generateIR left;; createICmpEQ l rightLLVMValue)
      else if hasFlags leftType ts.NumberLike
      then assigned (l <- generateIR left;; createFCmpOEQ l rightLLVMValue)
      else ret None

  | ts.LessThanEqualsToken =>
      if hasFlags leftType ts.IntLike
      then assigned (l <- generateIR left;; createICmpSLE l rightLLVMValue)
      else if hasFlags leftType ts.NumberLike
      then assigned (l <- generateIR left;; createFCmpULE l rightLLVMValue)
      else ret None

  | ts.PercentToken =>
      if hasFlags leftType ts.IntLike
      then assigned (l <- generateIR left;; createSRem l rightLLVMValue)
      else if hasFlags leftType ts.NumberLike
      then assigned (l <- generateIR left;; createFRem l rightLLVMValue)
      else ret None

  | ts.FirstAssignment =>
      ret (Some rightLLVMValue)

  | _ => ret None
  end.

(** [BinaryExpressionCodeGenerator.generate(binaryExpression, context)],
    for the expression [leftNode operatorToken rightNode];
    [generateValue] is [context.generateValue], the dispatcher over the
    syntactic categories. *)
Definition generate (generateValue : ts.Node -> M Value)
    (leftNode : ts.Node) (operatorToken : ts.SyntaxKind) (rightNode : ts.Node)
    : M Value :=
  left <- generateValue leftNode;;
  right <- generateValue rightNode;;
  rightLLVMValue <- generateIR right;;

  let leftType := ts.getTypeAtLocation leftNode in
  let rightType := ts.getTypeAtLocation rightNode in

  result <- switchOperator operatorToken leftType left rightLLVMValue;;

  match result with
  | None => throw (UnsupportedBinaryOperator operatorToken)
  | Some result =>
      let resultValue := context_value result rightType in
      (if isAssignment operatorToken
       then setValue left resultValue
       else ret tt);;
      ret resultValue
  end.

(** Modelled from the spec: [context.generateValue(node)], the
    dispatcher together with the generators of the operand categories.
    An identifier is looked up in the scope and yields the l-value of
    its slot ("Unresolved identifier is UnresolvedSymbol"); a literal
    yields a constant r-value; a binary expression goes to [generate]. *)
Fixpoint generateValue (node : ts.Node) : M Value :=
  match node with
  | ts.Identifier text type =>
      fun context =>
        match scope context !! text with
        | Some slot => (Ok (LValue slot type), context)
        | None => (Throw (UnresolvedSymbol text), context)
        end
  | ts.IntegerLiteral value type => ret (RValue (llvm.ConstantInt value) type)
  | ts.FloatLiteral text type => ret (RValue (llvm.ConstantFP text) type)
  | ts.BinaryExpression leftNode operatorToken rightNode _ =>
      generate generateValue leftNode operatorToken rightNode
  end.

End Generator.

(** ** Vocabulary of the statements *)

(** The context after the builder has inserted [i]. *)
Definition inserted (context : CodeGenerationContext) (i : llvm.Instruction)
    : CodeGenerationContext :=
  {| builder := builder context ++ [i]; scope := scope context |}.

(** The value the next inserted instruction is returned as. *)
Definition nextInst (context : CodeGenerationContext) : llvm.Value :=
  llvm.Inst (length (builder context)).

(** The instructions a step appends when run on [context]. *)
Definition emittedBy {A} (m : M A) (context : CodeGenerationContext)
    : list llvm.Instruction :=
  drop (length (builder context)) (builder (snd (m context))).

(** Lines 30 to 32 of the generator went through: [left] is the Value of
    the left operand, [rightLLVMValue] the r-value of the right one, and
    [context3] the context they leave behind. *)
Definition operandsLowered (generateValue : ts.Node -> M Value)
    (leftNode rightNode : ts.Node) (context : CodeGenerationContext)
    (left : Value) (rightLLVMValue : llvm.Value)
    (context3 : CodeGenerationContext) : Prop :=
  exists right context1 context2,
    generateValue leftNode context = (Ok left, context1) /\
    generateValue rightNode context1 = (Ok right, context2) /\
    generateIR right context2 = (Ok rightLLVMValue, context3).

(** Lines 144 to 150: wrap [result], assign it for an assignment form,
    return it. *)
Definition assignAndReturn `{PromotionRules} (operatorToken : ts.SyntaxKind)
    (left : Value) (result : llvm.Value) (rightType : ts.Type_) : M Value :=
  let resultValue := context_value result rightType in
  (if isAssignment operatorToken then setValue left resultValue else ret tt);;
  ret resultValue.

(** All the effects of lowering an operand to an r-value: the Value is
    generated, then its IR. *)
Definition lowerOperand (generateValue : ts.Node -> M Value) (node : ts.Node)
    : M llvm.Value :=
  v <- generateValue node;; generateIR v.

(** Left-to-right evaluation in the strong sense: whatever lowering the
    left operand emits comes first, whatever lowering the right operand
    emits comes next, the rest follows. *)
Definition leftEffectsFirst `{ts.TypeFlags} `{PromotionRules}
    (generateValue : ts.Node -> M Value)
    (leftNode : ts.Node) (operatorToken : ts.SyntaxKind) (rightNode : ts.Node)
    (context : CodeGenerationContext) : Prop :=
  exists rest,
    emittedBy (generate generateValue leftNode operatorToken rightNode) context =
    emittedBy (lowerOperand generateValue leftNode) context ++
    emittedBy (lowerOperand generateValue rightNode)
              (snd (lowerOperand generateValue leftNode context)) ++
    rest.

(** A step only ever appends to the instructions already emitted. *)
Definition appendOnly {A} (m : M A) : Prop :=
  forall context, builder context `prefix_of` builder (snd (m context)).

(** [int_like] is included in [number_like], as a fact about the masks. *)
Definition intLikeIsNumberLike `{ts.TypeFlags} : Prop :=
  Z.land ts.IntLike ts.NumberLike = ts.IntLike.

(** ** A concrete front end for the examples

    An assignment of the flag bits that satisfies [intLikeIsNumberLike]:
    [Number], [Boolean] and [NumberLiteral] sit where TypeScript 2.3 has
    them, the two int bits are placed above the bits TypeScript uses. *)

Definition Number : Z := Z.shiftl 1 2.
Definition Boolean : Z := Z.shiftl 1 3.
Definition NumberLiteral : Z := Z.shiftl 1 6.
Definition IntBit : Z := Z.shiftl 1 26.
Definition IntLiteralBit : Z := Z.shiftl 1 27.

Definition exampleFlags : ts.TypeFlags :=
  {| ts.Int := IntBit;
     ts.IntLike := Z.lor IntBit IntLiteralBit;
     ts.NumberLike :=
       Z.lor (Z.lor Number NumberLiteral) (Z.lor IntBit IntLiteralBit) |}.

Definition int32 : ts.Type_ := {| ts.flags := IntBit |}.
Definition intLiteral : ts.Type_ := {| ts.flags := IntLiteralBit |}.
Definition float64 : ts.Type_ := {| ts.flags := Number |}.
Definition bool_ : ts.Type_ := {| ts.flags := Boolean |}.

(** Promotion rules for the examples: an int widens to a float, a float
    does not narrow to an int, anything is stored into its own type. *)
Definition exampleRules : PromotionRules :=
  {| matchesAfterPromotion source target :=
       bool_decide (source = target) ||
       (@hasFlags source (@ts.NumberLike exampleFlags) &&
        @hasFlags target (@ts.NumberLike exampleFlags) &&
        negb (@hasFlags target (@ts.IntLike exampleFlags))) ||
       (@hasFlags source (@ts.IntLike exampleFlags) &&
        @hasFlags target (@ts.IntLike exampleFlags)) |}.

(** Two int32 variables [a], [b] and two float64 variables [x], [y]. *)
Definition exampleScope : gmap string llvm.Slot :=
  <["a" := 0%nat]> (<["b" := 1%nat]> (<["x" := 2%nat]> (<["y" := 3%nat]> ∅))).

Definition context0 : CodeGenerationContext :=
  {| builder := []; scope := exampleScope |}.

Definition a : ts.Node := ts.Identifier "a" int32.
Definition b : ts.Node := ts.Identifier "b" int32.
Definition x : ts.Node := ts.Identifier "x" float64.
Definition y : ts.Node := ts.Identifier "y" float64.
Definition zero : ts.Node := ts.IntegerLiteral 0 intLiteral.
Definition one : ts.Node := ts.IntegerLiteral 1 intLiteral.

(** [generateValue] and [generate] with the example front end. *)
Definition lower : ts.Node -> M Value := @generateValue exampleFlags exampleRules.
Definition lowerBinary : ts.Node -> ts.SyntaxKind -> ts.Node -> M Value :=
  @generate exampleFlags exampleRules lower.

(** ** Vocabulary of the further properties *)

(** The tokens that have a case label in the operator switch, in the
    order of the switch. *)
Definition casesOfTheSwitch : list ts.SyntaxKind :=
  [ts.AsteriskEqualsToken; ts.AsteriskToken; ts.BarToken;
   ts.PlusEqualsToken; ts.PlusToken; ts.MinusEqualsToken; ts.MinusToken;
   ts.GreaterThanToken; ts.LessThanToken; ts.SlashEqualsToken; ts.SlashToken;
   ts.EqualsEqualsEqualsToken; ts.LessThanEqualsToken; ts.PercentToken;
   ts.FirstAssignment].

(** The assignment forms among them. *)
Definition assigningCases : list ts.SyntaxKind :=
  [ts.AsteriskEqualsToken; ts.PlusEqualsToken; ts.MinusEqualsToken;
   ts.SlashEqualsToken; ts.FirstAssignment].

(** An instruction that computes a value from operands, as opposed to
    the memory accesses [Load] and [Store]. *)
Definition isComputation (i : llvm.Instruction) : bool :=
  match i with
  | llvm.BinaryOperator _ _ _ | llvm.ICmp _ _ _ | llvm.FCmp _ _ _
  | llvm.FPToSI _ _ => true
  | llvm.Load _ | llvm.Store _ _ => false
  end.

(** The identifiers that occur in an expression, left to right. *)
Fixpoint identifiers (node : ts.Node) : list string :=
  match node with
  | ts.Identifier text _ => [text]
  | ts.IntegerLiteral _ _ | ts.FloatLiteral _ _ => []
  | ts.BinaryExpression leftNode _ rightNode _ =>
      identifiers leftNode ++ identifiers rightNode
  end.

(** A step leaves the scope as it found it. *)
Definition scopeKept {A} (m : M A) : Prop :=
  forall context, scope (snd (m context)) = scope context.

(** A bool variable [flag] beside the variables of [context0], for the
    examples of the further properties. *)
Definition flag : ts.Node := ts.Identifier "flag" bool_.

Definition contextWithFlag : CodeGenerationContext :=
  {| builder := []; scope := <["flag" := 4%nat]> exampleScope |}.

Definition three : ts.Node := ts.IntegerLiteral 3 intLiteral.

(** ** How the monad runs *)

Lemma bind_Ok {A B} (m : M A) (k : A -> M B) context a context' :
  m context = (Ok a, context') -> bind m k context = k a context'.
Proof. intros Hm. unfold bind. now rewrite Hm. Qed.

Lemma bind_Throw {A B} (m : M A) (k : A -> M B) context e context' :
  m context = (Throw e, context') -> bind m k context = (Throw e, context').
Proof. intros Hm. unfold bind. now rewrite Hm. Qed.

Lemma bind_cases {A B} (m : M A) (k : A -> M B) context :
  (exists a context', m context = (Ok a, context') /\
                      bind m k context = k a context') \/
  (exists e context', m context = (Throw e, context') /\
                      bind m k context = (Throw e, context')).
Proof.
  destruct (m context) as [[a' | e] context'] eqn:Hm.
  - left. exists a', context'. split; [reflexivity | now apply bind_Ok].
  - right. exists e, context'. split; [reflexivity | now apply bind_Throw].
Qed.

(** [generateIR] never throws: an r-value is returned as it is, an
    l-value is loaded. *)
Lemma generateIR_RValue ssa type context :
  generateIR (RValue ssa type) context = (Ok ssa, context).
Proof. reflexivity. Qed.

Lemma generateIR_LValue slot type context :
  generateIR (LValue slot type) context =
  (Ok (nextInst context), inserted context (llvm.Load slot)).
Proof. reflexivity. Qed.

Lemma generateIR_total v context :
  exists llvmValue context', generateIR v context = (Ok llvmValue, context').
Proof. destruct v; eexists _, _; reflexivity. Qed.

Section Properties.
Context {typeFlags : ts.TypeFlags} {promotionRules : PromotionRules}.
Variable generateValue' : ts.Node -> M Value.

(** Once the operands are lowered, [generate] is its operator switch
    followed by the throw or by the wrapping and assignment. *)
Lemma generate_operands leftNode operatorToken rightNode context left
    rightLLVMValue context3 :
  operandsLowered generateValue' leftNode rightNode context left
                  rightLLVMValue context3 ->
  generate generateValue' leftNode operatorToken rightNode context =
  (result <- switchOperator operatorToken (ts.getTypeAtLocation leftNode)
                            left rightLLVMValue;;
   match result with
   | None => throw (UnsupportedBinaryOperator operatorToken)
   | Some result =>
       assignAndReturn operatorToken left result
                       (ts.getTypeAtLocation rightNode)
   end) context3.
Proof.
  intros (right & context1 & context2 & Hleft & Hright & HrightIR).
  unfold generate.
  rewrite (bind_Ok _ _ _ _ _ Hleft), (bind_Ok _ _ _ _ _ Hright),
          (bind_Ok _ _ _ _ _ HrightIR).
  reflexivity.
Qed.

(** A branch that emits one instruction on the r-value of the left
    operand. *)
Lemma assigned_insert left context3 leftLLVMValue context4
    (create : llvm.Value -> llvm.Instruction) :
  generateIR left context3 = (Ok leftLLVMValue, context4) ->
  assigned (l <- generateIR left;; insert (create l)) context3 =
  (Ok (Some (nextInst context4)), inserted context4 (create leftLLVMValue)).
Proof.
  intros Hleft. unfold assigned.
  rewrite (bind_Ok _ _ _ _ _ (bind_Ok _ _ _ _ _ Hleft)).
  reflexivity.
Qed.

Lemma assignAndReturn_pure operatorToken left result rightType context :
  isAssignment operatorToken = false ->
  assignAndReturn operatorToken left result rightType context =
  (Ok (RValue result rightType), context).
Proof. intros Hpure. unfold assignAndReturn. now rewrite Hpure. Qed.

(** The outcome of [generate] when the switch leaves [result] set. *)
Lemma generate_result leftNode operatorToken rightNode context left
    rightLLVMValue context3 result context4 :
  operandsLowered generateValue' leftNode rightNode context left
                  rightLLVMValue context3 ->
  switchOperator operatorToken (ts.getTypeAtLocation leftNode) left
                 rightLLVMValue context3 = (Ok (Some result), context4) ->
  generate generateValue' leftNode operatorToken rightNode context =
  assignAndReturn operatorToken left result (ts.getTypeAtLocation rightNode)
                  context4.
Proof.
  intros Hoperands Hswitch.
  rewrite (generate_operands _ _ _ _ _ _ _ Hoperands).
  now rewrite (bind_Ok _ _ _ _ _ Hswitch).
Qed.

(** The outcome of [generate] when the switch leaves [result] undefined. *)
Lemma generate_undefined leftNode operatorToken rightNode context left
    rightLLVMValue context3 context4 :
  operandsLowered generateValue' leftNode rightNode context left
                  rightLLVMValue context3 ->
  switchOperator operatorToken (ts.getTypeAtLocation leftNode) left
                 rightLLVMValue context3 = (Ok None, context4) ->
  generate generateValue' leftNode operatorToken rightNode context =
  (Throw (UnsupportedBinaryOperator operatorToken), context4).
Proof.
  intros Hoperands Hswitch.
  rewrite (generate_operands _ _ _ _ _ _ _ Hoperands).
  now rewrite (bind_Ok _ _ _ _ _ Hswitch).
Qed.

(** Runs a branch of the switch that emits one instruction. *)
Ltac emit_branch Hleft :=
  unfold createAdd, createFAdd, createSub, createFSub, createMul, createSDiv,
    createFDiv, createSRem, createFRem, createOr, createICmpEQ, createICmpSGT,
    createICmpSLT, createICmpSLE, createFCmpOEQ, createFCmpOGT, createFCmpULT,
    createFCmpULE, createFPToSI;
  match goal with
  | |- assigned (l <- generateIR _;; insert (@?create l)) _ = _ =>
      exact (assigned_insert _ _ _ _ create Hleft)
  end.

(** C9: for a left operand that is number_like and not int_like, [>]
    emits an ordered greater-than compare, [<] an unordered less-than
    compare, [<=] an unordered less-or-equal compare and [===] an
    ordered equality compare of the two r-values. *)
Theorem float_comparisons_mix_ordered_and_unordered
    leftNode rightNode context left rightLLVMValue context3
    leftLLVMValue context4 :
  hasFlags (ts.getTypeAtLocation leftNode) ts.IntLike = false ->
  hasFlags (ts.getTypeAtLocation leftNode) ts.NumberLike = true ->
  operandsLowered generateValue' leftNode rightNode context left
                  rightLLVMValue context3 ->
  generateIR left context3 = (Ok leftLLVMValue, context4) ->
  let emits operatorToken predicate :=
    generate generateValue' leftNode operatorToken rightNode context =
    (Ok (RValue (nextInst context4) (ts.getTypeAtLocation rightNode)),
     inserted context4 (llvm.FCmp predicate leftLLVMValue rightLLVMValue)) in
  emits ts.GreaterThanToken llvm.FCMP_OGT /\
  emits ts.LessThanToken llvm.FCMP_ULT /\
  emits ts.LessThanEqualsToken llvm.FCMP_ULE /\
  emits ts.EqualsEqualsEqualsToken llvm.FCMP_OEQ.
Proof.
  intros Hint Hnumber Hoperands Hleft emits. subst emits. cbv beta.
  repeat split.
  all: erewrite generate_result;
    [ apply assignAndReturn_pure; reflexivity
    | exact Hoperands
    | cbn [switchOperator]; rewrite Hint, Hnumber; emit_branch Hleft ].
Qed.

(** C6 (as the code has it): [>=], [!==], [&], [^], [<<], [>>] and [>>>]
    have no case in the operator switch; whatever the types of the
    operands, int_like included, the generator raises the
    unsupported-operator error for them once both operands are lowered,
    and emits no compare, bitwise or shift instruction. *)
Theorem operators_without_a_case_are_unsupported
    leftNode rightNode context left rightLLVMValue context3 :
  operandsLowered generateValue' leftNode rightNode context left
                  rightLLVMValue context3 ->
  let unsupported operatorToken :=
    generate generateValue' leftNode operatorToken rightNode context =
    (Throw (UnsupportedBinaryOperator operatorToken), context3) in
  unsupported ts.GreaterThanEqualsToken /\
  unsupported ts.ExclamationEqualsEqualsToken /\
  unsupported ts.AmpersandToken /\
  unsupported ts.CaretToken /\
  unsupported ts.LessThanLessThanToken /\
  unsupported ts.GreaterThanGreaterThanToken /\
  unsupported ts.GreaterThanGreaterThanGreaterThanToken.
Proof.
  intros Hoperands unsupported. subst unsupported. cbv beta.
  repeat split.
  all: now apply generate_undefined with (1 := Hoperands).
Qed.

(** C5 (as the code has it): for [*] and [*=], a left operand whose
    type carries the [Int] flag gets an integer multiply of the two
    r-values (which [*=] then assigns); a left operand whose type does
    not, a number_like one included, gets the unsupported-operator
    error and no multiply. *)
Theorem multiplication_needs_an_int_left_operand
    leftNode operatorToken rightNode context left rightLLVMValue context3
    leftLLVMValue context4 :
  operatorToken = ts.AsteriskToken \/ operatorToken = ts.AsteriskEqualsToken ->
  operandsLowered generateValue' leftNode rightNode context left
                  rightLLVMValue context3 ->
  generateIR left context3 = (Ok leftLLVMValue, context4) ->
  (hasFlags (ts.getTypeAtLocation leftNode) ts.Int = true ->
   generate generateValue' leftNode operatorToken rightNode context =
   assignAndReturn operatorToken left (nextInst context4)
     (ts.getTypeAtLocation rightNode)
     (inserted context4
        (llvm.BinaryOperator llvm.Mul leftLLVMValue rightLLVMValue))) /\
  (hasFlags (ts.getTypeAtLocation leftNode) ts.Int = false ->
   generate generateValue' leftNode operatorToken rightNode context =
   (Throw (UnsupportedBinaryOperator operatorToken), context3)).
Proof.
  intros Hoperator Hoperands Hleft. split; intros Hint.
  - apply generate_result with (1 := Hoperands).
    destruct Hoperator as [-> | ->]; cbn [switchOperator]; rewrite Hint;
      emit_branch Hleft.
  - apply generate_undefined with (1 := Hoperands).
    destruct Hoperator as [-> | ->]; cbn [switchOperator]; now rewrite Hint.
Qed.

(** The case of [|] as it is written, with its test of [NumberLike]
    alone: for a number_like left operand, int_like or not, a right
    operand whose r-value is not the integer constant zero gets a
    bitwise or, not an error; a left operand that is number_like and
    not int_like with the integer constant zero on the right gets the
    float-to-signed-int-32 truncation of the left r-value; a left
    operand that is not number_like gets the unsupported-operator
    error. *)
Theorem bar_truncates_on_zero_and_ors_otherwise
    leftNode rightNode context left rightLLVMValue context3
    leftLLVMValue context4 :
  operandsLowered generateValue' leftNode rightNode context left
                  rightLLVMValue context3 ->
  generateIR left context3 = (Ok leftLLVMValue, context4) ->
  let leftType := ts.getTypeAtLocation leftNode in
  let outcome := generate generateValue' leftNode ts.BarToken rightNode context in
  let emits instruction :=
    outcome =
    (Ok (RValue (nextInst context4) (ts.getTypeAtLocation rightNode)),
     inserted context4 instruction) in
  (hasFlags leftType ts.NumberLike = true ->
   llvm.isNullConstantInt rightLLVMValue = false ->
   emits (llvm.BinaryOperator llvm.Or leftLLVMValue rightLLVMValue)) /\
  (hasFlags leftType ts.NumberLike = true ->
   hasFlags leftType ts.IntLike = false ->
   llvm.isNullConstantInt rightLLVMValue = true ->
   emits (llvm.FPToSI leftLLVMValue llvm.Int32Ty)) /\
  (hasFlags leftType ts.NumberLike = false ->
   outcome = (Throw (UnsupportedBinaryOperator ts.BarToken), context3)).
Proof.
  intros Hoperands Hleft leftType outcome emits.
  subst leftType outcome emits. cbv beta.
  split; [| split].
  - intros Hnumber Hnonzero.
    erewrite generate_result;
      [ apply assignAndReturn_pure; reflexivity
      | exact Hoperands
      | cbn [switchOperator]; rewrite Hnumber, Hnonzero; emit_branch Hleft ].
  - intros Hnumber _ Hzero.
    erewrite generate_result;
      [ apply assignAndReturn_pure; reflexivity
      | exact Hoperands
      | cbn [switchOperator]; rewrite Hnumber, Hzero; emit_branch Hleft ].
  - intros Hnumber.
    apply generate_undefined with (1 := Hoperands).
    cbn [switchOperator]. now rewrite Hnumber.
Qed.

(** *** The assignment step *)

Lemma assignAndReturn_Ok operatorToken left result rightType context v context' :
  assignAndReturn operatorToken left result rightType context = (Ok v, context') ->
  v = RValue result rightType.
Proof.
  unfold assignAndReturn. intros Hrun.
  destruct (bind_cases
              (if isAssignment operatorToken
               then setValue left (context_value result rightType)
               else ret tt)
              (fun _ => ret (context_value result rightType)) context)
    as [(u & c & _ & Hk) | (e & c & _ & Hk)]; rewrite Hk in Hrun.
  - now inversion Hrun.
  - discriminate.
Qed.

(** What the assignment step throws is never the unsupported-operator
    error. *)
Lemma assignAndReturn_Throw operatorToken left result rightType context e context' :
  assignAndReturn operatorToken left result rightType context = (Throw e, context') ->
  (e = ReadOnlyTarget left \/
   exists source target, e = TypeMismatch source target) /\
  context' = context.
Proof.
  unfold assignAndReturn, setValue, generateAssignmentIR.
  destruct (isAssignment operatorToken); [| discriminate].
  destruct left as [ssa type | slot type]; cbn [isAssignable].
  - cbv [bind throw]. intros [= <- <-]. split; [now left | reflexivity].
  - destruct (matchesAfterPromotion _ _); [discriminate |].
    cbv [bind throw]. intros [= <- <-]. split; [right; eauto | reflexivity].
Qed.

(** C7: for an assignment form whose switch has computed [result], the
    generator throws the read-only-target error when the left operand
    is not assignable and otherwise assigns the Value [V] wrapping
    [result] to the left operand: the store of [result] into its slot is
    the last instruction emitted (a type mismatch being the assignment's
    own failure), and the expression evaluates to [V] itself, nothing is
    loaded back. *)
Theorem assignment_forms_store_the_result_and_evaluate_to_it
    leftNode operatorToken rightNode context left rightLLVMValue context3
    result context4 :
  isAssignment operatorToken = true ->
  operandsLowered generateValue' leftNode rightNode context left
                  rightLLVMValue context3 ->
  switchOperator operatorToken (ts.getTypeAtLocation leftNode) left
                 rightLLVMValue context3 = (Ok (Some result), context4) ->
  let rightType := ts.getTypeAtLocation rightNode in
  let V := RValue result rightType in
  let outcome :=
    generate generateValue' leftNode operatorToken rightNode context in
  (isAssignable left = false ->
   outcome = (Throw (ReadOnlyTarget left), context4)) /\
  (forall slot type, left = LValue slot type ->
   outcome =
   if matchesAfterPromotion rightType type
   then (Ok V, inserted context4 (llvm.Store result slot))
   else (Throw (TypeMismatch rightType type), context4)).
Proof.
  intros Hassignment Hoperands Hswitch rightType V outcome.
  subst outcome V rightType. cbv beta.
  rewrite (generate_result _ _ _ _ _ _ _ _ _ Hoperands Hswitch).
  unfold assignAndReturn. rewrite Hassignment.
  split.
  - intros Hreadonly. unfold setValue. now rewrite Hreadonly.
  - intros slot type ->.
    unfold setValue, generateAssignmentIR.
    cbn [isAssignable typeOf context_value].
    now destruct (matchesAfterPromotion _ type).
Qed.

(** *** Where an outcome of [generate] comes from *)

Lemma switchOperator_never_throws operatorToken leftType left rightLLVMValue
    context3 :
  exists result context4,
    switchOperator operatorToken leftType left rightLLVMValue context3 =
    (Ok result, context4) /\
    (result = None -> context4 = context3).
Proof.
  destruct operatorToken; cbn [switchOperator];
    repeat match goal with
           | |- context [if ?c then _ else _] => destruct c
           end;
    destruct left; eexists _, _; (split; [reflexivity | try discriminate]);
    reflexivity.
Qed.

(** An outcome of [generate] is the error of the left operand, or the
    error of the right operand, or, with both operands lowered, the
    outcome of the switch followed by the throw or the assignment. *)
Lemma generate_cases leftNode operatorToken rightNode context :
  (exists e context1,
     generateValue' leftNode context = (Throw e, context1) /\
     generate generateValue' leftNode operatorToken rightNode context =
     (Throw e, context1)) \/
  (exists left context1 e context2,
     generateValue' leftNode context = (Ok left, context1) /\
     generateValue' rightNode context1 = (Throw e, context2) /\
     generate generateValue' leftNode operatorToken rightNode context =
     (Throw e, context2)) \/
  (exists left rightLLVMValue context3 result context4,
     operandsLowered generateValue' leftNode rightNode context left
                     rightLLVMValue context3 /\
     switchOperator operatorToken (ts.getTypeAtLocation leftNode) left
                    rightLLVMValue context3 = (Ok result, context4) /\
     (result = None -> context4 = context3) /\
     generate generateValue' leftNode operatorToken rightNode context =
     match result with
     | None => (Throw (UnsupportedBinaryOperator operatorToken), context4)
     | Some result =>
         assignAndReturn operatorToken left result
                         (ts.getTypeAtLocation rightNode) context4
     end).
Proof.
  destruct (generateValue' leftNode context) as [[left | e] context1] eqn:Hleft.
  2: { left. exists e, context1. split; [reflexivity |].
       unfold generate. now rewrite (bind_Throw _ _ _ _ _ Hleft). }
  right.
  destruct (generateValue' rightNode context1) as [[right | e] context2] eqn:Hright.
  2: { left. exists left, context1, e, context2.
       split; [reflexivity |]. split; [exact Hright |].
       unfold generate.
       now rewrite (bind_Ok _ _ _ _ _ Hleft), (bind_Throw _ _ _ _ _ Hright). }
  right.
  destruct (generateIR_total right context2)
    as (rightLLVMValue & context3 & HrightIR).
  destruct (switchOperator_never_throws operatorToken
              (ts.getTypeAtLocation leftNode) left rightLLVMValue context3)
    as (result & context4 & Hswitch & Hnone).
  assert (Hoperands : operandsLowered generateValue' leftNode rightNode context
                                      left rightLLVMValue context3)
    by (exists right, context1, context2; auto).
  exists left, rightLLVMValue, context3, result, context4.
  repeat (split; [assumption |]).
  destruct result as [result |].
  - now apply generate_result with (1 := Hoperands).
  - now apply generate_undefined with (1 := Hoperands).
Qed.

(** C10: when [generate] ends in the unsupported-operator error, either
    the error came out of the lowering of an operand, or it is the
    generator's own, for its own operator token, and the context it
    leaves is the one left by the two operands and the r-value of the
    right one: the throw comes before the assignment step, nothing, no
    store in particular, is emitted between the operands and the throw. *)
Theorem unsupported_operator_is_thrown_before_the_assignment
    leftNode operatorToken rightNode context kind context' :
  generate generateValue' leftNode operatorToken rightNode context =
  (Throw (UnsupportedBinaryOperator kind), context') ->
  generateValue' leftNode context =
    (Throw (UnsupportedBinaryOperator kind), context') \/
  (exists left context1,
     generateValue' leftNode context = (Ok left, context1) /\
     generateValue' rightNode context1 =
       (Throw (UnsupportedBinaryOperator kind), context')) \/
  (kind = operatorToken /\
   exists left rightLLVMValue,
     operandsLowered generateValue' leftNode rightNode context left
                     rightLLVMValue context').
Proof.
  intros Hthrow.
  destruct (generate_cases leftNode operatorToken rightNode context)
    as [(e & context1 & Hleft & Hrun)
       | [(left & context1 & e & context2 & Hleft & Hright & Hrun)
         | (left & rightLLVMValue & context3 & result & context4 &
            Hoperands & _ & Hnone & Hrun)]];
    rewrite Hrun in Hthrow.
  - left. now rewrite Hleft, Hthrow.
  - right; left. exists left, context1. now rewrite Hright, Hthrow.
  - right; right. destruct result as [result |].
    + apply assignAndReturn_Throw in Hthrow.
      destruct Hthrow as [[Habs | (source & target & Habs)] _]; discriminate.
    + injection Hthrow as <- <-. rewrite (Hnone eq_refl).
      split; [reflexivity | eauto].
Qed.

(** Whatever the operator, a Value that [generate] returns records the
    static type of the right operand. *)
Lemma generate_records_the_right_operand_type
    leftNode operatorToken rightNode context v context' :
  generate generateValue' leftNode operatorToken rightNode context =
  (Ok v, context') ->
  typeOf v = ts.getTypeAtLocation rightNode.
Proof.
  intros Hok.
  destruct (generate_cases leftNode operatorToken rightNode context)
    as [(e & context1 & _ & Hrun)
       | [(left & context1 & e & context2 & _ & _ & Hrun)
         | (left & rightLLVMValue & context3 & result & context4 &
            _ & _ & _ & Hrun)]];
    rewrite Hrun in Hok; try discriminate.
  destruct result as [result |]; [| discriminate].
  apply assignAndReturn_Ok in Hok. now subst v.
Qed.

End Properties.

(** ** Emission is append-only *)

Lemma emittedBy_spec {A} (m : M A) context :
  appendOnly m ->
  builder (snd (m context)) = builder context ++ emittedBy m context.
Proof.
  intros Hm. destruct (Hm context) as [k Hk].
  unfold emittedBy. rewrite Hk. now rewrite drop_app_length.
Qed.

Lemma emittedBy_app {A} (m : M A) context k :
  builder (snd (m context)) = builder context ++ k -> emittedBy m context = k.
Proof. intros Hk. unfold emittedBy. rewrite Hk. apply drop_app_length. Qed.

Lemma appendOnly_ret {A} (a : A) : appendOnly (ret a).
Proof. intros context. reflexivity. Qed.

Lemma appendOnly_throw {A} e : appendOnly (@throw A e).
Proof. intros context. reflexivity. Qed.

Lemma appendOnly_insert i : appendOnly (insert i).
Proof. intros context. now apply prefix_app_r. Qed.

Lemma appendOnly_bind {A B} (m : M A) (k : A -> M B) :
  appendOnly m -> (forall a, appendOnly (k a)) -> appendOnly (bind m k).
Proof.
  intros Hm Hk context. specialize (Hm context). unfold bind.
  destruct (m context) as [[a' | e] context']; [| exact Hm].
  etransitivity; [exact Hm | apply Hk].
Qed.

(** What a sequence emits is what its first step emits followed by what
    the continuation emits. *)
Lemma emittedBy_bind {A B} (m : M A) (k : A -> M B) context a' context' :
  appendOnly m -> (forall a, appendOnly (k a)) ->
  m context = (Ok a', context') ->
  emittedBy (bind m k) context = emittedBy m context ++ emittedBy (k a') context'.
Proof.
  intros Hm Hk Hrun. apply emittedBy_app.
  rewrite (bind_Ok _ _ _ _ _ Hrun).
  rewrite (emittedBy_spec (k a') context' (Hk a')).
  pose proof (emittedBy_spec m context Hm) as Hfirst.
  rewrite Hrun in Hfirst. cbn [snd] in Hfirst.
  now rewrite Hfirst, app_assoc.
Qed.

Lemma appendOnly_generateIR v : appendOnly (generateIR v).
Proof. destruct v; [apply appendOnly_ret | apply appendOnly_insert]. Qed.

Create HintDb emission.
#[local] Hint Resolve appendOnly_ret appendOnly_throw appendOnly_insert
  appendOnly_generateIR : emission.
#[local] Hint Extern 2 (appendOnly (bind _ _)) =>
  apply appendOnly_bind; [| intro] : emission.
#[local] Hint Extern 2 (appendOnly (if ?c then _ else _)) =>
  destruct c : emission.

Section Emission.
Context {typeFlags : ts.TypeFlags} {promotionRules : PromotionRules}.

Lemma appendOnly_setValue target value : appendOnly (setValue target value).
Proof.
  unfold setValue, generateAssignmentIR, createStore.
  destruct target; cbn [isAssignable]; auto 10 with emission.
Qed.

Lemma appendOnly_assignAndReturn operatorToken left result rightType :
  appendOnly (assignAndReturn operatorToken left result rightType).
Proof.
  unfold assignAndReturn.
  apply appendOnly_bind; [| auto with emission].
  destruct (isAssignment operatorToken);
    [apply appendOnly_setValue | auto with emission].
Qed.

Lemma appendOnly_switchOperator operatorToken leftType left rightLLVMValue :
  appendOnly (switchOperator operatorToken leftType left rightLLVMValue).
Proof.
  unfold switchOperator, assigned, createAdd, createFAdd, createSub, createFSub,
    createMul, createSDiv, createFDiv, createSRem, createFRem, createOr,
    createICmpEQ, createICmpSGT, createICmpSLT, createICmpSLE, createFCmpOEQ,
    createFCmpOGT, createFCmpULT, createFCmpULE, createFPToSI.
  destruct operatorToken; auto 10 with emission.
Qed.

Lemma appendOnly_generate generateValue' leftNode operatorToken rightNode :
  appendOnly (generateValue' leftNode) ->
  appendOnly (generateValue' rightNode) ->
  appendOnly (generate generateValue' leftNode operatorToken rightNode).
Proof.
  intros Hleft Hright. unfold generate.
  apply appendOnly_bind; [exact Hleft | intros left].
  apply appendOnly_bind; [exact Hright | intros right].
  apply appendOnly_bind; [apply appendOnly_generateIR | intros rightLLVMValue].
  apply appendOnly_bind; [apply appendOnly_switchOperator | intros [result |]].
  - apply (appendOnly_assignAndReturn operatorToken left result).
  - apply appendOnly_throw.
Qed.

(** By induction on the expression: lowering any node only appends. *)
Lemma appendOnly_generateValue node : appendOnly (generateValue node).
Proof.
  induction node as [text type | value type | text type
                    | leftNode IHleft operatorToken rightNode IHright type];
    cbn [generateValue].
  - intros context. now destruct (scope context !! text).
  - apply appendOnly_ret.
  - apply appendOnly_ret.
  - now apply appendOnly_generate.
Qed.

(** Every branch of the switch other than the one of [=] that sets
    [result] reads the r-value of the left operand and inserts one
    instruction on it. *)
Lemma switchOperator_reads_left operatorToken leftType left rightLLVMValue
    context3 result context4 :
  operatorToken <> ts.EqualsToken ->
  switchOperator operatorToken leftType left rightLLVMValue context3 =
  (Ok (Some result), context4) ->
  exists leftLLVMValue context3' i,
    generateIR left context3 = (Ok leftLLVMValue, context3') /\
    result = nextInst context3' /\ context4 = inserted context3' i.
Proof.
  intros Hnot Hswitch.
  destruct (generateIR_total left context3) as (leftLLVMValue & context3' & Hleft).
  exists leftLLVMValue, context3'.
  destruct operatorToken; try congruence; cbn [switchOperator] in Hswitch;
    repeat match type of Hswitch with
           | context [if ?c then _ else _] => destruct c
           end;
    try discriminate;
    unfold createAdd, createFAdd, createSub, createFSub, createMul, createSDiv,
      createFDiv, createSRem, createFRem, createOr, createICmpEQ, createICmpSGT,
      createICmpSLT, createICmpSLE, createFCmpOEQ, createFCmpOGT, createFCmpULT,
      createFCmpULE, createFPToSI in Hswitch;
    match type of Hswitch with
    | assigned (l <- generateIR _;; insert (@?create l)) _ = _ =>
        rewrite (assigned_insert _ _ _ _ create Hleft) in Hswitch;
        injection Hswitch as <- <-;
        exists (create leftLLVMValue); auto
    end.
Qed.

(** The order of emission as it is written: the Value of the left
    operand is generated first, and everything that emits comes before
    everything the right operand emits, its r-value included; the
    r-value of the left operand is read afterwards, inside the branch
    of the operator, and is not read at all by [=], which only
    assigns. *)
Theorem left_value_is_generated_first_and_read_after_the_right_one
    leftNode operatorToken rightNode context left rightLLVMValue context3 :
  operandsLowered generateValue leftNode rightNode context left
                  rightLLVMValue context3 ->
  exists afterwards,
    emittedBy (generate generateValue leftNode operatorToken rightNode) context =
    emittedBy (generateValue leftNode) context ++
    emittedBy (lowerOperand generateValue rightNode)
              (snd (generateValue leftNode context)) ++
    afterwards /\
    (forall result context4,
       operatorToken <> ts.EqualsToken ->
       switchOperator operatorToken (ts.getTypeAtLocation leftNode) left
                      rightLLVMValue context3 = (Ok (Some result), context4) ->
       exists rest, afterwards = emittedBy (generateIR left) context3 ++ rest) /\
    (operatorToken = ts.EqualsToken ->
       afterwards =
       emittedBy (setValue left (RValue rightLLVMValue
                                        (ts.getTypeAtLocation rightNode)))
                 context3).
Proof.
  intros Hoperands.
  pose proof Hoperands as (right & context1 & context2 & Hleft & Hright & HrightIR).
  set (continuation := fun result : option llvm.Value =>
         match result with
         | None => throw (UnsupportedBinaryOperator operatorToken)
         | Some result =>
             assignAndReturn operatorToken left result
                             (ts.getTypeAtLocation rightNode)
         end).
  assert (Hcontinuation : forall result, appendOnly (continuation result)).
  { intros [result |]; [apply appendOnly_assignAndReturn | apply appendOnly_throw]. }
  set (tail := result <- switchOperator operatorToken
                           (ts.getTypeAtLocation leftNode) left rightLLVMValue;;
               continuation result).
  assert (Htail : appendOnly tail).
  { apply appendOnly_bind; [apply appendOnly_switchOperator | exact Hcontinuation]. }
  exists (emittedBy tail context3).
  split; [| split].
  - apply emittedBy_app.
    rewrite (generate_operands _ _ _ _ _ _ _ _ Hoperands).
    assert (Hlower : lowerOperand generateValue rightNode context1 =
                     (Ok rightLLVMValue, context3)).
    { unfold lowerOperand. now rewrite (bind_Ok _ _ _ _ _ Hright). }
    assert (HlowerOnly : appendOnly (lowerOperand generateValue rightNode)).
    { apply appendOnly_bind;
        [apply appendOnly_generateValue | apply appendOnly_generateIR]. }
    pose proof (emittedBy_spec _ context (appendOnly_generateValue leftNode))
      as Hfirst.
    pose proof (emittedBy_spec _ context1 HlowerOnly) as Hsecond.
    rewrite Hleft in *. cbn [snd] in *. rewrite Hlower in Hsecond.
    cbn [snd] in Hsecond.
    change (builder (snd (tail context3)) =
            builder context ++
            emittedBy (generateValue leftNode) context ++
            emittedBy (lowerOperand generateValue rightNode) context1 ++
            emittedBy tail context3).
    rewrite (emittedBy_spec tail context3 Htail), Hsecond, Hfirst.
    now rewrite <- !app_assoc.
  - intros result context4 Hnot Hswitch.
    pose proof (emittedBy_bind _ _ _ _ _ (appendOnly_switchOperator _ _ _ _)
                  Hcontinuation Hswitch) as Hsplit.
    change (emittedBy tail context3 =
            emittedBy (switchOperator operatorToken
                         (ts.getTypeAtLocation leftNode) left rightLLVMValue)
                      context3 ++
            emittedBy (continuation (Some result)) context4) in Hsplit.
    rewrite Hsplit.
    destruct (switchOperator_reads_left _ _ _ _ _ _ _ Hnot Hswitch)
      as (leftLLVMValue & context3' & i & HleftIR & _ & ->).
    exists (i :: emittedBy (continuation (Some result)) (inserted context3' i)).
    rewrite (app_assoc _ [i] _ : _ ++ i :: _ = _). f_equal.
    apply emittedBy_app.
    rewrite Hswitch. cbn [snd inserted builder].
    pose proof (emittedBy_spec _ context3 (appendOnly_generateIR left)) as Hread.
    rewrite HleftIR in Hread. cbn [snd] in Hread.
    now rewrite Hread, app_assoc.
  - intros ->. unfold tail, continuation, assignAndReturn, emittedBy.
    do 3 f_equal. cbn [switchOperator]. unfold bind at 1 2, ret at 1 3.
    change (isAssignment ts.EqualsToken) with true. cbv iota.
    unfold context_value.
    now destruct (setValue left _ context3) as [[u | e] context4].
Qed.

End Emission.

(** ** [int_like] inside [number_like] *)

Lemma int_like_is_number_like `{ts.TypeFlags} type :
  intLikeIsNumberLike ->
  hasFlags type ts.IntLike = true -> hasFlags type ts.NumberLike = true.
Proof.
  unfold intLikeIsNumberLike, hasFlags. intros Hincluded Hint.
  apply negb_true_iff, Z.eqb_neq in Hint.
  apply negb_true_iff, Z.eqb_neq. intros Hnumber. apply Hint.
  rewrite <- Hincluded, (Z.land_comm ts.IntLike), Z.land_assoc, Hnumber.
  apply Z.land_0_l.
Qed.

(** With [int_like] inside [number_like], an int_like left operand of
    [|] with the integer constant zero on the right goes through the
    float-to-int truncation: the switch tests [NumberLike] alone. *)
Lemma int_like_bar_zero_is_truncated `{ts.TypeFlags} `{PromotionRules}
    generateValue' leftNode rightNode context left rightLLVMValue context3
    leftLLVMValue context4 :
  intLikeIsNumberLike ->
  hasFlags (ts.getTypeAtLocation leftNode) ts.IntLike = true ->
  llvm.isNullConstantInt rightLLVMValue = true ->
  operandsLowered generateValue' leftNode rightNode context left
                  rightLLVMValue context3 ->
  generateIR left context3 = (Ok leftLLVMValue, context4) ->
  generate generateValue' leftNode ts.BarToken rightNode context =
  (Ok (RValue (nextInst context4) (ts.getTypeAtLocation rightNode)),
   inserted context4 (llvm.FPToSI leftLLVMValue llvm.Int32Ty)).
Proof.
  intros Hincluded Hint Hzero Hoperands Hleft.
  pose proof (int_like_is_number_like _ Hincluded Hint) as Hnumber.
  erewrite generate_result;
    [ apply assignAndReturn_pure; reflexivity
    | exact Hoperands
    | cbn [switchOperator]; rewrite Hnumber, Hzero ].
  unfold createFPToSI.
  exact (assigned_insert _ _ _ _ (fun l => llvm.FPToSI l llvm.Int32Ty) Hleft).
Qed.

(** ** The generator on the example front end *)

Section Examples.
#[local] Existing Instance exampleFlags.
#[local] Existing Instance exampleRules.

Lemma example_flags_included : intLikeIsNumberLike.
Proof. reflexivity. Qed.

(** The operands of [a op b], of [x op y], of [x op 0], of [x op 1] and
    of [a op 0], lowered from [context0]. *)
Lemma operands_a_b :
  operandsLowered lower a b context0 (LValue 0%nat int32) (llvm.Inst 0)
                  (inserted context0 (llvm.Load 1%nat)).
Proof. exists (LValue 1%nat int32), context0, context0. now vm_compute. Qed.

Lemma operands_x_y :
  operandsLowered lower x y context0 (LValue 2%nat float64) (llvm.Inst 0)
                  (inserted context0 (llvm.Load 3%nat)).
Proof. exists (LValue 3%nat float64), context0, context0. now vm_compute. Qed.

Lemma operands_x_zero :
  operandsLowered lower x zero context0 (LValue 2%nat float64)
                  (llvm.ConstantInt 0) context0.
Proof.
  exists (RValue (llvm.ConstantInt 0) intLiteral), context0, context0.
  now vm_compute.
Qed.

Lemma operands_x_one :
  operandsLowered lower x one context0 (LValue 2%nat float64)
                  (llvm.ConstantInt 1) context0.
Proof.
  exists (RValue (llvm.ConstantInt 1) intLiteral), context0, context0.
  now vm_compute.
Qed.

Lemma operands_a_one :
  operandsLowered lower a one context0 (LValue 0%nat int32)
                  (llvm.ConstantInt 1) context0.
Proof.
  exists (RValue (llvm.ConstantInt 1) intLiteral), context0, context0.
  now vm_compute.
Qed.

Lemma operands_one_a :
  operandsLowered lower one a context0 (RValue (llvm.ConstantInt 1) intLiteral)
                  (llvm.Inst 0) (inserted context0 (llvm.Load 0%nat)).
Proof. exists (LValue 0%nat int32), context0, context0. now vm_compute. Qed.

(** *** The recorded type *)

(** C1: [a < b] on two int32 variables is lowered to a signed compare
    whose Value records int32, the type of the right operand [b], and
    not bool, the type the checker gave the expression. *)
Theorem less_than_records_the_operand_type_not_bool :
  lower (ts.BinaryExpression a ts.LessThanToken b bool_) context0 =
  (Ok (RValue (llvm.Inst 2) int32),
   {| builder := [llvm.Load 1%nat; llvm.Load 0%nat;
                  llvm.ICmp llvm.ICMP_SLT (llvm.Inst 1) (llvm.Inst 0)];
      scope := exampleScope |}) /\
  ts.getTypeAtLocation (ts.BinaryExpression a ts.LessThanToken b bool_) = bool_ /\
  typeOf (RValue (llvm.Inst 2) int32) = ts.getTypeAtLocation b /\
  int32 <> bool_.
Proof. repeat apply conj; [now vm_compute .. | discriminate]. Qed.

(** *** The operator [|] *)

(** C2: [x | 1] with [x] a float64 variable, number_like and not
    int_like, and a right operand that is not the constant zero, is not
    refused: the case of [|] tests [NumberLike] alone, never [IntLike],
    and emits a bitwise or of the loaded float and the constant where
    the unsupported-operator error is due. *)
Lemma bar_one_on_a_float_emits_or :
  hasFlags float64 ts.NumberLike = true /\
  hasFlags float64 ts.IntLike = false /\
  lowerBinary x ts.BarToken one context0 =
  (Ok (RValue (llvm.Inst 1) intLiteral),
   {| builder := [llvm.Load 2%nat;
                  llvm.BinaryOperator llvm.Or (llvm.Inst 0) (llvm.ConstantInt 1)];
      scope := exampleScope |}) /\
  ~ (exists e context',
       lowerBinary x ts.BarToken one context0 = (Throw e, context')).
Proof.
  repeat apply conj; try now vm_compute.
  intros (e & context' & Hthrow). vm_compute in Hthrow. discriminate.
Qed.

Lemma bar_truncates_on_zero_and_ors_otherwise_witness :
  lowerBinary x ts.BarToken one context0 =
  (Ok (RValue (llvm.Inst 1) intLiteral),
   {| builder := [llvm.Load 2%nat;
                  llvm.BinaryOperator llvm.Or (llvm.Inst 0) (llvm.ConstantInt 1)];
      scope := exampleScope |}) /\
  lowerBinary x ts.BarToken zero context0 =
  (Ok (RValue (llvm.Inst 1) intLiteral),
   {| builder := [llvm.Load 2%nat; llvm.FPToSI (llvm.Inst 0) llvm.Int32Ty];
      scope := exampleScope |}).
Proof.
  split.
  - apply (bar_truncates_on_zero_and_ors_otherwise lower x one context0
             (LValue 2%nat float64) (llvm.ConstantInt 1) context0
             (llvm.Inst 0) (inserted context0 (llvm.Load 2%nat))
             operands_x_one eq_refl); reflexivity.
  - apply (bar_truncates_on_zero_and_ors_otherwise lower x zero context0
             (LValue 2%nat float64) (llvm.ConstantInt 0) context0
             (llvm.Inst 0) (inserted context0 (llvm.Load 2%nat))
             operands_x_zero eq_refl); reflexivity.
Defined.

(** C3: [a | 0] with [a] an int32 variable, whose type is int_like,
    takes the float path: the loaded [a] goes through a
    float-to-signed-int-32 truncation, no bitwise or is emitted. *)
Theorem bar_zero_truncates_an_int32_operand :
  hasFlags int32 ts.IntLike = true /\
  lowerBinary a ts.BarToken zero context0 =
  (Ok (RValue (llvm.Inst 1) intLiteral),
   {| builder := [llvm.Load 0%nat; llvm.FPToSI (llvm.Inst 0) llvm.Int32Ty];
      scope := exampleScope |}).
Proof.
  split; [reflexivity |].
  apply (int_like_bar_zero_is_truncated lower a zero context0
           (LValue 0%nat int32) (llvm.ConstantInt 0) context0
           (llvm.Inst 0) (inserted context0 (llvm.Load 0%nat))
           example_flags_included);
    try reflexivity.
  exists (RValue (llvm.ConstantInt 0) intLiteral), context0, context0.
  now vm_compute.
Qed.

(** C8: [x |= 0] is not lowered like [x | 0] followed by a store: the
    switch has no case for [|=], nor for [%=], although [isAssignment]
    knows both, and the generator throws the unsupported-operator error
    with nothing emitted; [x | 0] is lowered, without a store. *)
Theorem bar_equals_is_thrown_as_unsupported :
  isAssignment ts.BarEqualsToken = true /\
  lowerBinary x ts.BarEqualsToken zero context0 =
  (Throw (UnsupportedBinaryOperator ts.BarEqualsToken), context0) /\
  lowerBinary x ts.BarToken zero context0 =
  (Ok (RValue (llvm.Inst 1) intLiteral),
   {| builder := [llvm.Load 2%nat; llvm.FPToSI (llvm.Inst 0) llvm.Int32Ty];
      scope := exampleScope |}) /\
  isAssignment ts.PercentEqualsToken = true /\
  lowerBinary a ts.PercentEqualsToken one context0 =
  (Throw (UnsupportedBinaryOperator ts.PercentEqualsToken), context0).
Proof. repeat apply conj; now vm_compute. Qed.

(** *** The order of the operands *)

(** In [a + b] the load of the right operand [b] is emitted before
    the load of the left operand [a]. *)
Lemma plus_reads_the_right_operand_first :
  emittedBy (lowerBinary a ts.PlusToken b) context0 =
  [llvm.Load 1%nat; llvm.Load 0%nat;
   llvm.BinaryOperator llvm.Add (llvm.Inst 1) (llvm.Inst 0)] /\
  emittedBy (lowerOperand lower a) context0 = [llvm.Load 0%nat] /\
  ~ leftEffectsFirst lower a ts.PlusToken b context0.
Proof.
  repeat apply conj; try now vm_compute.
  intros (rest & Hrest). vm_compute in Hrest. discriminate.
Qed.

(** C4: in [a + (a = 3)] the left operand [a] is read after the right
    operand has been lowered: the store of 3 into [a] is emitted first,
    the load of [a] second, and the addition works on the value the
    right operand assigned, not on the one [a] had before it. *)
Theorem plus_reads_its_left_operand_after_the_right_one_assigned_it :
  lowerBinary a ts.PlusToken
              (ts.BinaryExpression a ts.EqualsToken three intLiteral)
              context0 =
  (Ok (RValue (llvm.Inst 2) intLiteral),
   {| builder := [llvm.Store (llvm.ConstantInt 3) 0%nat; llvm.Load 0%nat;
                  llvm.BinaryOperator llvm.Add (llvm.Inst 1)
                                      (llvm.ConstantInt 3)];
      scope := exampleScope |}) /\
  emittedBy (lowerOperand lower a) context0 = [llvm.Load 0%nat] /\
  ~ leftEffectsFirst lower a ts.PlusToken
      (ts.BinaryExpression a ts.EqualsToken three intLiteral) context0.
Proof.
  repeat apply conj; try now vm_compute.
  intros (rest & Hrest). vm_compute in Hrest. discriminate.
Qed.

Lemma left_value_is_generated_first_and_read_after_the_right_one_witness :
  exists afterwards,
    emittedBy (generate generateValue a ts.PlusToken b) context0 =
    emittedBy (generateValue a) context0 ++
    emittedBy (lowerOperand generateValue b) (snd (generateValue a context0)) ++
    afterwards /\
    (forall result context4,
       ts.PlusToken <> ts.EqualsToken ->
       switchOperator ts.PlusToken (ts.getTypeAtLocation a) (LValue 0%nat int32)
                      (llvm.Inst 0) (inserted context0 (llvm.Load 1%nat)) =
       (Ok (Some result), context4) ->
       exists rest,
         afterwards =
         emittedBy (generateIR (LValue 0%nat int32))
                   (inserted context0 (llvm.Load 1%nat)) ++ rest) /\
    (ts.PlusToken = ts.EqualsToken ->
       afterwards =
       emittedBy (setValue (LValue 0%nat int32)
                           (RValue (llvm.Inst 0) (ts.getTypeAtLocation b)))
                 (inserted context0 (llvm.Load 1%nat))).
Proof.
  exact (left_value_is_generated_first_and_read_after_the_right_one
           a ts.PlusToken b context0 (LValue 0%nat int32) (llvm.Inst 0)
           (inserted context0 (llvm.Load 1%nat)) operands_a_b).
Defined.

(** *** Operators and operand types the switch does not serve *)

(** C5, counterexample: [x * y] on two float64 variables, number_like
    and not int_like, is not multiplied: the generator throws the
    unsupported-operator error, having emitted the load of [y] only. *)
Lemma float_multiplication_is_unsupported :
  hasFlags float64 ts.NumberLike = true /\
  hasFlags float64 ts.IntLike = false /\
  lowerBinary x ts.AsteriskToken y context0 =
  (Throw (UnsupportedBinaryOperator ts.AsteriskToken),
   {| builder := [llvm.Load 3%nat]; scope := exampleScope |}).
Proof. repeat apply conj; now vm_compute. Qed.

Lemma multiplication_needs_an_int_left_operand_witness :
  lowerBinary a ts.AsteriskToken b context0 =
  (Ok (RValue (llvm.Inst 2) int32),
   {| builder := [llvm.Load 1%nat; llvm.Load 0%nat;
                  llvm.BinaryOperator llvm.Mul (llvm.Inst 1) (llvm.Inst 0)];
      scope := exampleScope |}) /\
  lowerBinary x ts.AsteriskEqualsToken y context0 =
  (Throw (UnsupportedBinaryOperator ts.AsteriskEqualsToken),
   {| builder := [llvm.Load 3%nat]; scope := exampleScope |}).
Proof.
  split.
  - apply (multiplication_needs_an_int_left_operand lower a ts.AsteriskToken b
             context0 (LValue 0%nat int32) (llvm.Inst 0)
             (inserted context0 (llvm.Load 1%nat)) (llvm.Inst 1)
             (inserted (inserted context0 (llvm.Load 1%nat)) (llvm.Load 0%nat))
             (or_introl eq_refl) operands_a_b eq_refl).
    reflexivity.
  - apply (multiplication_needs_an_int_left_operand lower x
             ts.AsteriskEqualsToken y
             context0 (LValue 2%nat float64) (llvm.Inst 0)
             (inserted context0 (llvm.Load 3%nat)) (llvm.Inst 1)
             (inserted (inserted context0 (llvm.Load 3%nat)) (llvm.Load 2%nat))
             (or_intror eq_refl) operands_x_y eq_refl).
    reflexivity.
Defined.

(** C6, counterexample: [a >= b] on two int32 variables, int_like, is
    thrown as unsupported; no signed greater-or-equal compare is
    emitted, only the load of [b]. *)
Lemma greater_or_equal_on_ints_is_unsupported :
  hasFlags int32 ts.IntLike = true /\
  lowerBinary a ts.GreaterThanEqualsToken b context0 =
  (Throw (UnsupportedBinaryOperator ts.GreaterThanEqualsToken),
   {| builder := [llvm.Load 1%nat]; scope := exampleScope |}).
Proof. repeat apply conj; now vm_compute. Qed.

Lemma operators_without_a_case_are_unsupported_witness :
  lowerBinary a ts.GreaterThanEqualsToken b context0 =
  (Throw (UnsupportedBinaryOperator ts.GreaterThanEqualsToken),
   inserted context0 (llvm.Load 1%nat)) /\
  lowerBinary a ts.AmpersandToken b context0 =
  (Throw (UnsupportedBinaryOperator ts.AmpersandToken),
   inserted context0 (llvm.Load 1%nat)).
Proof.
  pose proof (operators_without_a_case_are_unsupported lower a b context0
                (LValue 0%nat int32) (llvm.Inst 0)
                (inserted context0 (llvm.Load 1%nat)) operands_a_b)
    as (Hge & _ & Hand & _).
  split; [exact Hge | exact Hand].
Defined.

(** *** Assignment forms, float compares, the unsupported-operator error *)

Lemma switch_a_plus_equals_one :
  switchOperator ts.PlusEqualsToken (ts.getTypeAtLocation a)
                 (LValue 0%nat int32) (llvm.ConstantInt 1) context0 =
  (Ok (Some (llvm.Inst 1)),
   inserted (inserted context0 (llvm.Load 0%nat))
     (llvm.BinaryOperator llvm.Add (llvm.Inst 0) (llvm.ConstantInt 1))).
Proof. now vm_compute. Qed.

Lemma switch_one_equals_a :
  switchOperator ts.EqualsToken (ts.getTypeAtLocation one)
                 (RValue (llvm.ConstantInt 1) intLiteral) (llvm.Inst 0)
                 (inserted context0 (llvm.Load 0%nat)) =
  (Ok (Some (llvm.Inst 0)), inserted context0 (llvm.Load 0%nat)).
Proof. now vm_compute. Qed.

Lemma assignment_forms_store_the_result_and_evaluate_to_it_witness :
  lowerBinary a ts.PlusEqualsToken one context0 =
  (Ok (RValue (llvm.Inst 1) intLiteral),
   {| builder := [llvm.Load 0%nat;
                  llvm.BinaryOperator llvm.Add (llvm.Inst 0) (llvm.ConstantInt 1);
                  llvm.Store (llvm.Inst 1) 0%nat];
      scope := exampleScope |}) /\
  lowerBinary one ts.EqualsToken a context0 =
  (Throw (ReadOnlyTarget (RValue (llvm.ConstantInt 1) intLiteral)),
   {| builder := [llvm.Load 0%nat]; scope := exampleScope |}).
Proof.
  split.
  - destruct (assignment_forms_store_the_result_and_evaluate_to_it lower
                a ts.PlusEqualsToken one context0 (LValue 0%nat int32)
                (llvm.ConstantInt 1) context0 (llvm.Inst 1) _
                eq_refl operands_a_one switch_a_plus_equals_one)
      as [_ Hstore].
    etransitivity; [exact (Hstore 0%nat int32 eq_refl) | now vm_compute].
  - destruct (assignment_forms_store_the_result_and_evaluate_to_it lower
                one ts.EqualsToken a context0
                (RValue (llvm.ConstantInt 1) intLiteral)
                (llvm.Inst 0) _ (llvm.Inst 0) _
                eq_refl operands_one_a switch_one_equals_a)
      as [Hreadonly _].
    etransitivity; [exact (Hreadonly eq_refl) | now vm_compute].
Defined.

Lemma float_comparisons_mix_ordered_and_unordered_witness :
  let compared predicate :=
    (Ok (RValue (llvm.Inst 2) float64),
     {| builder := [llvm.Load 3%nat; llvm.Load 2%nat;
                    llvm.FCmp predicate (llvm.Inst 1) (llvm.Inst 0)];
        scope := exampleScope |}) in
  lowerBinary x ts.GreaterThanToken y context0 = compared llvm.FCMP_OGT /\
  lowerBinary x ts.LessThanToken y context0 = compared llvm.FCMP_ULT /\
  lowerBinary x ts.LessThanEqualsToken y context0 = compared llvm.FCMP_ULE /\
  lowerBinary x ts.EqualsEqualsEqualsToken y context0 = compared llvm.FCMP_OEQ.
Proof.
  exact (float_comparisons_mix_ordered_and_unordered lower x y context0
           (LValue 2%nat float64) (llvm.Inst 0)
           (inserted context0 (llvm.Load 3%nat)) (llvm.Inst 1)
           (inserted (inserted context0 (llvm.Load 3%nat)) (llvm.Load 2%nat))
           eq_refl eq_refl operands_x_y eq_refl).
Defined.

Lemma unsupported_operator_is_thrown_before_the_assignment_witness :
  lowerBinary a ts.AmpersandEqualsToken b context0 =
  (Throw (UnsupportedBinaryOperator ts.AmpersandEqualsToken),
   inserted context0 (llvm.Load 1%nat)) /\
  (lower a context0 =
     (Throw (UnsupportedBinaryOperator ts.AmpersandEqualsToken),
      inserted context0 (llvm.Load 1%nat)) \/
   (exists left context1,
      lower a context0 = (Ok left, context1) /\
      lower b context1 =
        (Throw (UnsupportedBinaryOperator ts.AmpersandEqualsToken),
         inserted context0 (llvm.Load 1%nat))) \/
   (ts.AmpersandEqualsToken = ts.AmpersandEqualsToken /\
    exists left rightLLVMValue,
      operandsLowered lower a b context0 left rightLLVMValue
                      (inserted context0 (llvm.Load 1%nat)))).
Proof.
  assert (Hthrow : lowerBinary a ts.AmpersandEqualsToken b context0 =
                   (Throw (UnsupportedBinaryOperator ts.AmpersandEqualsToken),
                    inserted context0 (llvm.Load 1%nat)))
    by now vm_compute.
  split; [exact Hthrow |].
  exact (unsupported_operator_is_thrown_before_the_assignment lower
           a ts.AmpersandEqualsToken b context0 ts.AmpersandEqualsToken
           (inserted context0 (llvm.Load 1%nat)) Hthrow).
Defined.

End Examples.

(** ** Further properties of the generator *)

(** *** The scope is never touched *)

Lemma scopeKept_ret {A} (a : A) : scopeKept (ret a).
Proof. intros context. reflexivity. Qed.

Lemma scopeKept_throw {A} e : scopeKept (@throw A e).
Proof. intros context. reflexivity. Qed.

Lemma scopeKept_insert i : scopeKept (insert i).
Proof. intros context. reflexivity. Qed.

Lemma scopeKept_bind {A B} (m : M A) (k : A -> M B) :
  scopeKept m -> (forall a, scopeKept (k a)) -> scopeKept (bind m k).
Proof.
  intros Hm Hk context. specialize (Hm context). unfold bind.
  destruct (m context) as [[a' | e] context']; [| exact Hm].
  cbn [snd] in Hm. now rewrite Hk.
Qed.

Lemma scopeKept_generateIR v : scopeKept (generateIR v).
Proof. destruct v; [apply scopeKept_ret | apply scopeKept_insert]. Qed.

Create HintDb scoping.
#[local] Hint Resolve scopeKept_ret scopeKept_throw scopeKept_insert
  scopeKept_generateIR : scoping.
#[local] Hint Extern 2 (scopeKept (bind _ _)) =>
  apply scopeKept_bind; [| intro] : scoping.
#[local] Hint Extern 2 (scopeKept (if ?c then _ else _)) =>
  destruct c : scoping.

Section Coverage.
Context {typeFlags : ts.TypeFlags} {promotionRules : PromotionRules}.

Lemma scopeKept_assignAndReturn operatorToken left result rightType :
  scopeKept (assignAndReturn operatorToken left result rightType).
Proof.
  unfold assignAndReturn, setValue, generateAssignmentIR, createStore.
  destruct left; cbn [isAssignable]; auto 10 with scoping.
Qed.

Lemma scopeKept_switchOperator operatorToken leftType left rightLLVMValue :
  scopeKept (switchOperator operatorToken leftType left rightLLVMValue).
Proof.
  unfold switchOperator, assigned, createAdd, createFAdd, createSub, createFSub,
    createMul, createSDiv, createFDiv, createSRem, createFRem, createOr,
    createICmpEQ, createICmpSGT, createICmpSLT, createICmpSLE, createFCmpOEQ,
    createFCmpOGT, createFCmpULT, createFCmpULE, createFPToSI.
  destruct operatorToken; auto 10 with scoping.
Qed.

Lemma scopeKept_generate generateValue' leftNode operatorToken rightNode :
  scopeKept (generateValue' leftNode) ->
  scopeKept (generateValue' rightNode) ->
  scopeKept (generate generateValue' leftNode operatorToken rightNode).
Proof.
  intros Hleft Hright. unfold generate.
  apply scopeKept_bind; [exact Hleft | intros left].
  apply scopeKept_bind; [exact Hright | intros right].
  apply scopeKept_bind; [apply scopeKept_generateIR | intros rightLLVMValue].
  apply scopeKept_bind; [apply scopeKept_switchOperator | intros [result |]].
  - apply (scopeKept_assignAndReturn operatorToken left result).
  - apply scopeKept_throw.
Qed.

Lemma scopeKept_generateValue node : scopeKept (generateValue node).
Proof.
  induction node as [text type | value type | text type
                    | leftNode IHleft operatorToken rightNode IHright type];
    cbn [generateValue].
  - intros context. now destruct (scope context !! text).
  - apply scopeKept_ret.
  - apply scopeKept_ret.
  - now apply scopeKept_generate.
Qed.

(** X7: lowering an expression, whether it returns or throws, keeps
    every instruction emitted before it in place, at the front of the
    builder's list, and leaves the scope unchanged. *)
Theorem lowering_extends_the_builder_and_keeps_the_scope node context :
  builder context `prefix_of` builder (snd (generateValue node context)) /\
  scope (snd (generateValue node context)) = scope context.
Proof.
  split; [apply appendOnly_generateValue | apply scopeKept_generateValue].
Qed.

(** *** What the switch serves *)

Ltac unfold_creates :=
  unfold createAdd, createFAdd, createSub, createFSub, createMul, createSDiv,
    createFDiv, createSRem, createFRem, createOr, createICmpEQ, createICmpSGT,
    createICmpSLT, createICmpSLE, createFCmpOEQ, createFCmpOGT, createFCmpULT,
    createFCmpULE, createFPToSI.

(** The switch sets [result] for the tokens of its case labels only. *)
Lemma switchOperator_Some_case operatorToken leftType left rightLLVMValue
    context3 result context4 :
  switchOperator operatorToken leftType left rightLLVMValue context3 =
  (Ok (Some result), context4) ->
  operatorToken ∈ casesOfTheSwitch.
Proof.
  destruct operatorToken; cbn [switchOperator]; try discriminate;
    intros _; unfold casesOfTheSwitch; repeat constructor.
Qed.

(** X1: a binary expression is lowered without error only if its
    operator is one of the fifteen tokens with a case label in the
    switch, and an assignment form only if it is [=], [+=], [-=], [*=]
    or [/=]: the other eight compound assignments that [isAssignment]
    knows never go through. *)
Theorem only_the_cases_of_the_switch_are_lowered
    (generateValue' : ts.Node -> M Value)
    leftNode operatorToken rightNode context v context' :
  generate generateValue' leftNode operatorToken rightNode context =
  (Ok v, context') ->
  operatorToken ∈ casesOfTheSwitch /\
  (isAssignment operatorToken = true -> operatorToken ∈ assigningCases).
Proof.
  intros Hok.
  destruct (generate_cases generateValue' leftNode operatorToken rightNode context)
    as [(e & context1 & _ & Hrun)
       | [(left & context1 & e & context2 & _ & _ & Hrun)
         | (left & rightLLVMValue & context3 & result & context4 &
            _ & Hswitch & _ & Hrun)]];
    rewrite Hrun in Hok; try discriminate.
  destruct result as [result |]; [| discriminate].
  apply switchOperator_Some_case in Hswitch.
  split; [exact Hswitch |].
  unfold casesOfTheSwitch in Hswitch. unfold assigningCases.
  repeat (apply elem_of_cons in Hswitch as [-> | Hswitch];
          [first [discriminate | intros _; repeat constructor] |]).
  now apply elem_of_nil in Hswitch.
Qed.

(** X2: when the type of the left operand carries none of the [Int],
    [IntLike] and [NumberLike] flags, every operator but the simple
    assignment is thrown as unsupported once the operands are lowered,
    and nothing is emitted for it. *)
Theorem operators_on_a_non_numeric_left_operand_are_unsupported
    (generateValue' : ts.Node -> M Value)
    leftNode operatorToken rightNode context left rightLLVMValue context3 :
  hasFlags (ts.getTypeAtLocation leftNode) ts.Int = false ->
  hasFlags (ts.getTypeAtLocation leftNode) ts.IntLike = false ->
  hasFlags (ts.getTypeAtLocation leftNode) ts.NumberLike = false ->
  operatorToken <> ts.EqualsToken ->
  operandsLowered generateValue' leftNode rightNode context left
                  rightLLVMValue context3 ->
  generate generateValue' leftNode operatorToken rightNode context =
  (Throw (UnsupportedBinaryOperator operatorToken), context3).
Proof.
  intros Hint Hintlike Hnumber Hnot Hoperands.
  apply generate_undefined with (1 := Hoperands).
  destruct operatorToken; try congruence; cbn [switchOperator];
    now rewrite ?Hint, ?Hintlike, ?Hnumber.
Qed.

(** X3: for an int_like left operand the type-dispatched cases take the
    integer branch, whatever [NumberLike] says: [+] and [+=] add, [-]
    and [-=] subtract, [/] and [/=] divide signed, [%] takes the signed
    remainder, [>], [<], [<=] and [===] compare signed, on the r-value
    of the left operand read after the right one. *)
Theorem int_like_left_operand_selects_the_integer_instruction
    (generateValue' : ts.Node -> M Value)
    leftNode rightNode context left rightLLVMValue context3
    leftLLVMValue context4 :
  hasFlags (ts.getTypeAtLocation leftNode) ts.IntLike = true ->
  operandsLowered generateValue' leftNode rightNode context left
                  rightLLVMValue context3 ->
  generateIR left context3 = (Ok leftLLVMValue, context4) ->
  let emits operatorToken instruction :=
    generate generateValue' leftNode operatorToken rightNode context =
    assignAndReturn operatorToken left (nextInst context4)
      (ts.getTypeAtLocation rightNode)
      (inserted context4 (instruction leftLLVMValue rightLLVMValue)) in
  emits ts.PlusToken (llvm.BinaryOperator llvm.Add) /\
  emits ts.PlusEqualsToken (llvm.BinaryOperator llvm.Add) /\
  emits ts.MinusToken (llvm.BinaryOperator llvm.Sub) /\
  emits ts.MinusEqualsToken (llvm.BinaryOperator llvm.Sub) /\
  emits ts.SlashToken (llvm.BinaryOperator llvm.SDiv) /\
  emits ts.SlashEqualsToken (llvm.BinaryOperator llvm.SDiv) /\
  emits ts.PercentToken (llvm.BinaryOperator llvm.SRem) /\
  emits ts.GreaterThanToken (llvm.ICmp llvm.ICMP_SGT) /\
  emits ts.LessThanToken (llvm.ICmp llvm.ICMP_SLT) /\
  emits ts.LessThanEqualsToken (llvm.ICmp llvm.ICMP_SLE) /\
  emits ts.EqualsEqualsEqualsToken (llvm.ICmp llvm.ICMP_EQ).
Proof.
  intros Hint Hoperands Hleft emits. subst emits. cbv beta.
  repeat apply conj.
  all: apply generate_result with (1 := Hoperands);
    cbn [switchOperator]; rewrite Hint; unfold_creates;
    match goal with
    | |- assigned (l <- generateIR _;; insert (@?create l)) _ = _ =>
        exact (assigned_insert _ _ _ _ create Hleft)
    end.
Qed.

(** X4: for a left operand that is number_like and not int_like the
    arithmetic cases take the float branch: [+] and [+=] emit a float
    add, [-] and [-=] a float subtract, [/] and [/=] a float divide and
    [%] a float remainder. *)
Theorem float_left_operand_selects_the_float_arithmetic
    (generateValue' : ts.Node -> M Value)
    leftNode rightNode context left rightLLVMValue context3
    leftLLVMValue context4 :
  hasFlags (ts.getTypeAtLocation leftNode) ts.IntLike = false ->
  hasFlags (ts.getTypeAtLocation leftNode) ts.NumberLike = true ->
  operandsLowered generateValue' leftNode rightNode context left
                  rightLLVMValue context3 ->
  generateIR left context3 = (Ok leftLLVMValue, context4) ->
  let emits operatorToken op :=
    generate generateValue' leftNode operatorToken rightNode context =
    assignAndReturn operatorToken left (nextInst context4)
      (ts.getTypeAtLocation rightNode)
      (inserted context4
         (llvm.BinaryOperator op leftLLVMValue rightLLVMValue)) in
  emits ts.PlusToken llvm.FAdd /\
  emits ts.PlusEqualsToken llvm.FAdd /\
  emits ts.MinusToken llvm.FSub /\
  emits ts.MinusEqualsToken llvm.FSub /\
  emits ts.SlashToken llvm.FDiv /\
  emits ts.SlashEqualsToken llvm.FDiv /\
  emits ts.PercentToken llvm.FRem.
Proof.
  intros Hint Hnumber Hoperands Hleft emits. subst emits. cbv beta.
  repeat apply conj.
  all: apply generate_result with (1 := Hoperands);
    cbn [switchOperator]; rewrite Hint, Hnumber; unfold_creates;
    match goal with
    | |- assigned (l <- generateIR _;; insert (@?create l)) _ = _ =>
        exact (assigned_insert _ _ _ _ create Hleft)
    end.
Qed.

(** *** Assignments *)

(** X5: the simple assignment looks at no type flag and never reads
    the left operand: once the operands are lowered it is not thrown as
    unsupported whatever the types are; a left operand that is not
    assignable gives the read-only-target error with nothing emitted,
    an l-value gets one store of the r-value of the right operand, and
    the expression evaluates to that r-value. *)
Theorem simple_assignment_is_type_blind_and_stores_the_right_value
    (generateValue' : ts.Node -> M Value)
    leftNode rightNode context left rightLLVMValue context3 :
  operandsLowered generateValue' leftNode rightNode context left
                  rightLLVMValue context3 ->
  let rightType := ts.getTypeAtLocation rightNode in
  let outcome :=
    generate generateValue' leftNode ts.EqualsToken rightNode context in
  (isAssignable left = false ->
   outcome = (Throw (ReadOnlyTarget left), context3)) /\
  (forall slot type, left = LValue slot type ->
   outcome =
   if matchesAfterPromotion rightType type
   then (Ok (RValue rightLLVMValue rightType),
         inserted context3 (llvm.Store rightLLVMValue slot))
   else (Throw (TypeMismatch rightType type), context3)).
Proof.
  intros Hoperands rightType outcome. subst outcome rightType. cbv beta.
  rewrite (generate_result _ _ ts.EqualsToken _ _ _ _ _ rightLLVMValue context3
             Hoperands eq_refl).
  unfold assignAndReturn. change (isAssignment ts.EqualsToken) with true.
  cbv iota. split.
  - intros Hreadonly. unfold setValue. now rewrite Hreadonly.
  - intros slot type ->.
    unfold setValue, generateAssignmentIR.
    cbn [isAssignable typeOf context_value].
    now destruct (matchesAfterPromotion _ type).
Qed.

(** A Value that [generate] returns is never assignable. *)
Lemma generate_returns_an_rvalue (generateValue' : ts.Node -> M Value)
    leftNode operatorToken rightNode context v context' :
  generate generateValue' leftNode operatorToken rightNode context =
  (Ok v, context') ->
  isAssignable v = false.
Proof.
  intros Hok.
  destruct (generate_cases generateValue' leftNode operatorToken rightNode context)
    as [(e & context1 & _ & Hrun)
       | [(left & context1 & e & context2 & _ & _ & Hrun)
         | (left & rightLLVMValue & context3 & result & context4 &
            _ & _ & _ & Hrun)]];
    rewrite Hrun in Hok; try discriminate.
  destruct result as [result |]; [| discriminate].
  apply assignAndReturn_Ok in Hok. now subst v.
Qed.

(** X10: an assignment form whose left operand is itself a binary
    expression never goes through: what the inner expression returns
    is not assignable, so the outer one ends in an error, that of an
    operand, the unsupported-operator error or the read-only-target
    error. *)
Theorem assigning_to_a_binary_expression_always_throws
    innerLeft innerOperator innerRight innerType
    operatorToken rightNode context :
  isAssignment operatorToken = true ->
  exists e context',
    generate generateValue
      (ts.BinaryExpression innerLeft innerOperator innerRight innerType)
      operatorToken rightNode context = (Throw e, context').
Proof.
  intros Hassignment.
  destruct (generate_cases generateValue
              (ts.BinaryExpression innerLeft innerOperator innerRight innerType)
              operatorToken rightNode context)
    as [(e & context1 & _ & Hrun)
       | [(left & context1 & e & context2 & _ & _ & Hrun)
         | (left & rightLLVMValue & context3 & result & context4 &
            Hoperands & _ & _ & Hrun)]];
    rewrite Hrun; eauto.
  destruct result as [result |]; [| eauto].
  destruct Hoperands as (right & context1 & context2 & Hleft & _ & _).
  cbn [generateValue] in Hleft.
  apply generate_returns_an_rvalue in Hleft.
  unfold assignAndReturn, setValue. rewrite Hassignment, Hleft.
  eexists _, _. reflexivity.
Qed.

(** *** Operators that do not assign *)

(** A branch of the switch other than the one of [=] that sets [result]
    inserts a computation, not a memory access. *)
Lemma switchOperator_inserts_a_computation operatorToken leftType left
    rightLLVMValue context3 result context4 :
  operatorToken <> ts.EqualsToken ->
  switchOperator operatorToken leftType left rightLLVMValue context3 =
  (Ok (Some result), context4) ->
  exists leftLLVMValue context3' i,
    generateIR left context3 = (Ok leftLLVMValue, context3') /\
    result = nextInst context3' /\ context4 = inserted context3' i /\
    isComputation i = true.
Proof.
  intros Hnot Hswitch.
  destruct (generateIR_total left context3) as (leftLLVMValue & context3' & Hleft).
  exists leftLLVMValue, context3'.
  destruct operatorToken; try congruence; cbn [switchOperator] in Hswitch;
    repeat match type of Hswitch with
           | context [if ?c then _ else _] => destruct c
           end;
    try discriminate;
    unfold createAdd, createFAdd, createSub, createFSub, createMul, createSDiv,
      createFDiv, createSRem, createFRem, createOr, createICmpEQ, createICmpSGT,
      createICmpSLT, createICmpSLE, createFCmpOEQ, createFCmpOGT, createFCmpULT,
      createFCmpULE, createFPToSI in Hswitch;
    match type of Hswitch with
    | assigned (l <- generateIR _;; insert (@?create l)) _ = _ =>
        rewrite (assigned_insert _ _ _ _ create Hleft) in Hswitch;
        injection Hswitch as <- <-;
        exists (create leftLLVMValue); auto
    end.
Qed.

(** X9: an operator that is not an assignment form, when it is lowered
    without error, reads the left operand after the operands are
    lowered and inserts exactly one more instruction, a computation and
    never a load or a store; the Value returned is that instruction. *)
Theorem operators_that_do_not_assign_insert_one_computation
    (generateValue' : ts.Node -> M Value)
    leftNode operatorToken rightNode context left rightLLVMValue context3
    v context' :
  isAssignment operatorToken = false ->
  operandsLowered generateValue' leftNode rightNode context left
                  rightLLVMValue context3 ->
  generate generateValue' leftNode operatorToken rightNode context =
  (Ok v, context') ->
  exists leftLLVMValue context4 i,
    generateIR left context3 = (Ok leftLLVMValue, context4) /\
    context' = inserted context4 i /\
    isComputation i = true /\
    v = RValue (nextInst context4) (ts.getTypeAtLocation rightNode).
Proof.
  intros Hpure Hoperands Hok.
  rewrite (generate_operands _ _ _ _ _ _ _ _ Hoperands) in Hok.
  destruct (switchOperator_never_throws operatorToken
              (ts.getTypeAtLocation leftNode) left rightLLVMValue context3)
    as (result & context4 & Hswitch & _).
  rewrite (bind_Ok _ _ _ _ _ Hswitch) in Hok.
  destruct result as [result |]; [| discriminate].
  rewrite (assignAndReturn_pure _ _ _ _ _ Hpure) in Hok.
  injection Hok as <- <-.
  assert (Hnot : operatorToken <> ts.EqualsToken) by (intros ->; discriminate).
  destruct (switchOperator_inserts_a_computation _ _ _ _ _ _ _ Hnot Hswitch)
    as (leftLLVMValue & context3' & i & Hleft & -> & -> & Hcomputation).
  exists leftLLVMValue, context3', i. auto.
Qed.

(** *** Whole expressions *)

(** X8: both operands of every binary expression are always lowered,
    whatever the operator: an expression is lowered without error only
    if every identifier that occurs in it, at any depth and on either
    side, has a slot in the scope. *)
Theorem a_lowered_expression_has_its_identifiers_in_scope
    node context v context' text :
  generateValue node context = (Ok v, context') ->
  text ∈ identifiers node ->
  is_Some (scope context !! text).
Proof.
  revert context v context'.
  induction node as [text' type | value type | text' type
                    | leftNode IHleft operatorToken rightNode IHright type];
    intros context v context' Hok Hin; cbn [identifiers] in Hin.
  - apply list_elem_of_singleton in Hin as ->. cbn [generateValue] in Hok.
    destruct (scope context !! text') as [slot |]; [eauto | discriminate].
  - now apply elem_of_nil in Hin.
  - now apply elem_of_nil in Hin.
  - cbn [generateValue] in Hok.
    destruct (generate_cases generateValue leftNode operatorToken rightNode context)
      as [(e & context1 & _ & Hrun)
         | [(left & context1 & e & context2 & _ & _ & Hrun)
           | (left & rightLLVMValue & context3 & result & context4 &
              Hoperands & _ & _ & _)]];
      [rewrite Hrun in Hok; discriminate .. |].
    destruct Hoperands as (right & context1 & context2 & Hleft & Hright & _).
    apply elem_of_app in Hin as [Hin | Hin].
    + exact (IHleft _ _ _ Hleft Hin).
    + pose proof (scopeKept_generateValue leftNode context) as Hscope.
      rewrite Hleft in Hscope. cbn [snd] in Hscope. rewrite <- Hscope.
      exact (IHright _ _ _ Hright Hin).
Qed.

(** X6: in a chained assignment [outer = inner = e] of two variables,
    [e] is lowered once; its r-value is stored into the slot of [inner]
    first, then the same r-value into the slot of [outer], neither
    variable is loaded, and the whole expression evaluates to that
    r-value. *)
Theorem chained_assignment_stores_one_value_twice
    outer outerType slotOuter inner innerType slotInner
    (node : ts.Node) chainType type context right context2
    rightLLVMValue context3 :
  scope context !! outer = Some slotOuter ->
  scope context !! inner = Some slotInner ->
  generateValue node context = (Ok right, context2) ->
  generateIR right context2 = (Ok rightLLVMValue, context3) ->
  matchesAfterPromotion (ts.getTypeAtLocation node) innerType = true ->
  matchesAfterPromotion chainType outerType = true ->
  generateValue
    (ts.BinaryExpression (ts.Identifier outer outerType) ts.EqualsToken
       (ts.BinaryExpression (ts.Identifier inner innerType) ts.EqualsToken
          node chainType)
       type)
    context =
  (Ok (RValue rightLLVMValue chainType),
   inserted (inserted context3 (llvm.Store rightLLVMValue slotInner))
            (llvm.Store rightLLVMValue slotOuter)).
Proof.
  intros Houter Hinner Hnode HnodeIR HmatchInner HmatchOuter.
  set (innerNode := ts.BinaryExpression (ts.Identifier inner innerType)
                      ts.EqualsToken node chainType).
  assert (HinnerRun :
            generateValue innerNode context =
            (Ok (RValue rightLLVMValue (ts.getTypeAtLocation node)),
             inserted context3 (llvm.Store rightLLVMValue slotInner))).
  { subst innerNode. cbn [generateValue].
    assert (Hoperands :
              operandsLowered generateValue (ts.Identifier inner innerType) node
                context (LValue slotInner innerType) rightLLVMValue context3).
    { exists right, context, context2. repeat apply conj; try assumption.
      cbn [generateValue]. now rewrite Hinner. }
    rewrite (generate_result _ _ ts.EqualsToken _ _ _ _ _ rightLLVMValue
               context3 Hoperands eq_refl).
    unfold assignAndReturn, setValue, generateAssignmentIR.
    change (isAssignment ts.EqualsToken) with true.
    cbn [isAssignable typeOf context_value]. now rewrite HmatchInner. }
  cbn [generateValue]. fold innerNode.
  assert (Hoperands :
            operandsLowered generateValue (ts.Identifier outer outerType)
              innerNode context (LValue slotOuter outerType) rightLLVMValue
              (inserted context3 (llvm.Store rightLLVMValue slotInner))).
  { exists (RValue rightLLVMValue (ts.getTypeAtLocation node)), context,
      (inserted context3 (llvm.Store rightLLVMValue slotInner)).
    repeat apply conj; [| exact HinnerRun | reflexivity].
    cbn [generateValue]. now rewrite Houter. }
  change (generate generateValue (ts.Identifier outer outerType) ts.EqualsToken
            innerNode context =
          (Ok (RValue rightLLVMValue chainType),
           inserted (inserted context3 (llvm.Store rightLLVMValue slotInner))
                    (llvm.Store rightLLVMValue slotOuter))).
  rewrite (generate_result _ _ ts.EqualsToken _ _ _ _ _ rightLLVMValue _
             Hoperands eq_refl).
  unfold assignAndReturn, setValue, generateAssignmentIR.
  change (isAssignment ts.EqualsToken) with true.
  cbn [isAssignable typeOf context_value ts.getTypeAtLocation innerNode].
  subst innerNode. cbn [ts.getTypeAtLocation]. now rewrite HmatchOuter.
Qed.

End Coverage.

(** ** The further properties on the example front end *)

Section CoverageExamples.
#[local] Existing Instance exampleFlags.
#[local] Existing Instance exampleRules.

Lemma run_a_plus_equals_one :
  lowerBinary a ts.PlusEqualsToken one context0 =
  (Ok (RValue (llvm.Inst 1) intLiteral),
   {| builder := [llvm.Load 0%nat;
                  llvm.BinaryOperator llvm.Add (llvm.Inst 0) (llvm.ConstantInt 1);
                  llvm.Store (llvm.Inst 1) 0%nat];
      scope := exampleScope |}).
Proof. now vm_compute. Qed.

Lemma only_the_cases_of_the_switch_are_lowered_witness :
  ts.PlusEqualsToken ∈ casesOfTheSwitch /\
  (isAssignment ts.PlusEqualsToken = true ->
   ts.PlusEqualsToken ∈ assigningCases).
Proof.
  exact (@only_the_cases_of_the_switch_are_lowered exampleFlags exampleRules
           lower a ts.PlusEqualsToken
           one context0 _ _ run_a_plus_equals_one).
Defined.

Lemma operands_flag_one :
  operandsLowered lower flag one contextWithFlag (LValue 4%nat bool_)
                  (llvm.ConstantInt 1) contextWithFlag.
Proof.
  exists (RValue (llvm.ConstantInt 1) intLiteral), contextWithFlag,
    contextWithFlag.
  now vm_compute.
Qed.

Lemma operators_on_a_non_numeric_left_operand_are_unsupported_witness :
  lowerBinary flag ts.PlusToken one contextWithFlag =
  (Throw (UnsupportedBinaryOperator ts.PlusToken), contextWithFlag).
Proof.
  apply (@operators_on_a_non_numeric_left_operand_are_unsupported
           exampleFlags exampleRules lower
           flag ts.PlusToken one contextWithFlag (LValue 4%nat bool_)
           (llvm.ConstantInt 1) contextWithFlag eq_refl eq_refl eq_refl).
  - discriminate.
  - exact operands_flag_one.
Defined.

Lemma int_like_left_operand_selects_the_integer_instruction_witness :
  lowerBinary a ts.SlashToken b context0 =
  (Ok (RValue (llvm.Inst 2) int32),
   {| builder := [llvm.Load 1%nat; llvm.Load 0%nat;
                  llvm.BinaryOperator llvm.SDiv (llvm.Inst 1) (llvm.Inst 0)];
      scope := exampleScope |}) /\
  lowerBinary a ts.LessThanEqualsToken b context0 =
  (Ok (RValue (llvm.Inst 2) int32),
   {| builder := [llvm.Load 1%nat; llvm.Load 0%nat;
                  llvm.ICmp llvm.ICMP_SLE (llvm.Inst 1) (llvm.Inst 0)];
      scope := exampleScope |}).
Proof.
  destruct (@int_like_left_operand_selects_the_integer_instruction exampleFlags exampleRules
              lower a b
              context0 (LValue 0%nat int32) (llvm.Inst 0)
              (inserted context0 (llvm.Load 1%nat)) (llvm.Inst 1)
              (inserted (inserted context0 (llvm.Load 1%nat)) (llvm.Load 0%nat))
              eq_refl operands_a_b eq_refl)
    as (_ & _ & _ & _ & Hdiv & _ & _ & _ & _ & Hle & _).
  split.
  - etransitivity; [exact Hdiv | now vm_compute].
  - etransitivity; [exact Hle | now vm_compute].
Defined.

Lemma float_left_operand_selects_the_float_arithmetic_witness :
  lowerBinary x ts.PercentToken y context0 =
  (Ok (RValue (llvm.Inst 2) float64),
   {| builder := [llvm.Load 3%nat; llvm.Load 2%nat;
                  llvm.BinaryOperator llvm.FRem (llvm.Inst 1) (llvm.Inst 0)];
      scope := exampleScope |}) /\
  lowerBinary x ts.PlusEqualsToken y context0 =
  (Ok (RValue (llvm.Inst 2) float64),
   {| builder := [llvm.Load 3%nat; llvm.Load 2%nat;
                  llvm.BinaryOperator llvm.FAdd (llvm.Inst 1) (llvm.Inst 0);
                  llvm.Store (llvm.Inst 2) 2%nat];
      scope := exampleScope |}).
Proof.
  destruct (@float_left_operand_selects_the_float_arithmetic exampleFlags exampleRules
              lower x y
              context0 (LValue 2%nat float64) (llvm.Inst 0)
              (inserted context0 (llvm.Load 3%nat)) (llvm.Inst 1)
              (inserted (inserted context0 (llvm.Load 3%nat)) (llvm.Load 2%nat))
              eq_refl eq_refl operands_x_y eq_refl)
    as (_ & Hadd & _ & _ & _ & _ & Hrem).
  split.
  - etransitivity; [exact Hrem | now vm_compute].
  - etransitivity; [exact Hadd | now vm_compute].
Defined.

Lemma simple_assignment_is_type_blind_and_stores_the_right_value_witness :
  lowerBinary x ts.EqualsToken y context0 =
  (Ok (RValue (llvm.Inst 0) float64),
   {| builder := [llvm.Load 3%nat; llvm.Store (llvm.Inst 0) 2%nat];
      scope := exampleScope |}) /\
  lowerBinary flag ts.EqualsToken one contextWithFlag =
  (Throw (TypeMismatch intLiteral bool_), contextWithFlag).
Proof.
  split.
  - destruct (@simple_assignment_is_type_blind_and_stores_the_right_value exampleFlags exampleRules
                lower
                x y context0 (LValue 2%nat float64) (llvm.Inst 0)
                (inserted context0 (llvm.Load 3%nat)) operands_x_y)
      as [_ Hstore].
    etransitivity; [exact (Hstore 2%nat float64 eq_refl) | now vm_compute].
  - destruct (@simple_assignment_is_type_blind_and_stores_the_right_value exampleFlags exampleRules
                lower
                flag one contextWithFlag (LValue 4%nat bool_)
                (llvm.ConstantInt 1) contextWithFlag operands_flag_one)
      as [_ Hstore].
    etransitivity; [exact (Hstore 4%nat bool_ eq_refl) | now vm_compute].
Defined.

Lemma chained_assignment_stores_one_value_twice_witness :
  lower (ts.BinaryExpression a ts.EqualsToken
           (ts.BinaryExpression b ts.EqualsToken three intLiteral) intLiteral)
        context0 =
  (Ok (RValue (llvm.ConstantInt 3) intLiteral),
   inserted (inserted context0 (llvm.Store (llvm.ConstantInt 3) 1%nat))
            (llvm.Store (llvm.ConstantInt 3) 0%nat)).
Proof.
  apply (@chained_assignment_stores_one_value_twice exampleFlags exampleRules
           "a" int32 0%nat "b" int32
           1%nat three intLiteral intLiteral context0
           (RValue (llvm.ConstantInt 3) intLiteral) context0
           (llvm.ConstantInt 3) context0);
    now vm_compute.
Defined.

Lemma run_a_plus_b :
  lower (ts.BinaryExpression a ts.PlusToken b int32) context0 =
  (Ok (RValue (llvm.Inst 2) int32),
   {| builder := [llvm.Load 1%nat; llvm.Load 0%nat;
                  llvm.BinaryOperator llvm.Add (llvm.Inst 1) (llvm.Inst 0)];
      scope := exampleScope |}).
Proof. now vm_compute. Qed.

Lemma a_lowered_expression_has_its_identifiers_in_scope_witness :
  is_Some (scope context0 !! "b").
Proof.
  apply (@a_lowered_expression_has_its_identifiers_in_scope exampleFlags exampleRules
           (ts.BinaryExpression a ts.PlusToken b int32) context0 _ _ "b"
           run_a_plus_b).
  cbn [identifiers a b app]. repeat constructor.
Defined.

Lemma run_a_less_than_b :
  lowerBinary a ts.LessThanToken b context0 =
  (Ok (RValue (llvm.Inst 2) int32),
   {| builder := [llvm.Load 1%nat; llvm.Load 0%nat;
                  llvm.ICmp llvm.ICMP_SLT (llvm.Inst 1) (llvm.Inst 0)];
      scope := exampleScope |}).
Proof. now vm_compute. Qed.

Lemma operators_that_do_not_assign_insert_one_computation_witness :
  exists leftLLVMValue context4 i,
    generateIR (LValue 0%nat int32) (inserted context0 (llvm.Load 1%nat)) =
    (Ok leftLLVMValue, context4) /\
    {| builder := [llvm.Load 1%nat; llvm.Load 0%nat;
                   llvm.ICmp llvm.ICMP_SLT (llvm.Inst 1) (llvm.Inst 0)];
       scope := exampleScope |} = inserted context4 i /\
    isComputation i = true /\
    RValue (llvm.Inst 2) int32 =
    RValue (nextInst context4) (ts.getTypeAtLocation b).
Proof.
  exact (@operators_that_do_not_assign_insert_one_computation exampleFlags exampleRules
           lower
           a ts.LessThanToken b context0 (LValue 0%nat int32) (llvm.Inst 0)
           (inserted context0 (llvm.Load 1%nat)) _ _
           eq_refl operands_a_b run_a_less_than_b).
Defined.

Lemma assigning_to_a_binary_expression_always_throws_witness :
  exists e context',
    generate generateValue (ts.BinaryExpression a ts.PlusToken b int32)
             ts.EqualsToken one context0 = (Throw e, context').
Proof.
  exact (@assigning_to_a_binary_expression_always_throws exampleFlags exampleRules
           a ts.PlusToken b int32
           ts.EqualsToken one context0 eq_refl).
Defined.

End CoverageExamples.
